(** * Real-Estate Property Search agent: a shallow embedding of
      [agent.py] and [app.py] and the properties of their specification.

    The two Python modules are translated function by function.  Their
    external collaborators (the language-model client [litellm.completion],
    [json.loads], the MongoDB collection, the built-in [str]) are not code
    of the repository: they are Variables of the section [Agent], so every
    theorem holds for whatever these collaborators answer.  A concrete
    instance of each (module [Sample]) is used to run the programs on
    explicit inputs.

    Effects are explicit.  A computation is a function from a [world]
    (pending console lines, the log of external events, the document
    store, the Streamlit session) to an [outcome] and a new world; a
    Python exception is the outcome [Raise]. *)

From Stdlib Require Import ZArith String Ascii SpecFloat.
From stdpp Require Import base option list gmap strings pretty.

Set Warnings "-register-all".
Open Scope string_scope.
Open Scope list_scope.

(** ** Text *)

Module Text.

(** The double quote and the line feed, which string literals of this file
    never contain directly. *)
Definition dq : string := String (ascii_of_nat 34) EmptyString.
Definition nl : string := String (ascii_of_nat 10) EmptyString.

(** [q s] is [s] between double quotes. *)
Definition q (s : string) : string := dq +:+ s +:+ dq.

(** [str.isspace] on code points below 128: TAB..CR, FS..US and SPACE.
    Text is modelled as ASCII; the Unicode spaces that [str.strip] also
    removes are outside the model. *)
Definition is_space (c : ascii) : bool :=
  let n := nat_of_ascii c in
  ((9 <=? n)%nat && (n <=? 13)%nat) || ((28 <=? n)%nat && (n <=? 32)%nat).

Fixpoint lstrip (s : string) : string :=
  match s with
  | String c s' => if is_space c then lstrip s' else s
  | EmptyString => EmptyString
  end.

(** [rstrip]: a character is kept when it is not a space or when something
    is kept after it. *)
Fixpoint rstrip (s : string) : string :=
  match s with
  | String c s' =>
      match rstrip s' with
      | EmptyString => if is_space c then EmptyString else String c EmptyString
      | r => String c r
      end
  | EmptyString => EmptyString
  end.

(** [s.strip()] *)
Definition strip (s : string) : string := rstrip (lstrip s).

(** [str.lower] on code points below 128: A..Z become a..z. *)
Definition lower_char (c : ascii) : ascii :=
  let n := nat_of_ascii c in
  if ((65 <=? n)%nat && (n <=? 90)%nat) then ascii_of_nat (n + 32) else c.

Fixpoint lower (s : string) : string :=
  match s with
  | String c s' => String (lower_char c) (lower s')
  | EmptyString => EmptyString
  end.

(** [x in (a, b, ...)] for strings. *)
Definition str_in (x : string) (xs : list string) : bool :=
  existsb (String.eqb x) xs.

(** [sep.join(parts)] *)
Definition join (sep : string) (parts : list string) : string :=
  String.concat sep parts.

(** Truth value of a string: non-empty. *)
Definition nonempty (s : string) : bool :=
  match s with EmptyString => false | _ => true end.

End Text.
Import Text.

(** ** Python values *)

(** The values [json.loads] can return.  Objects are dictionaries keyed by
    strings; the programs only look keys up ([get], [in], [[]]), so the
    insertion order of a Python dictionary is not represented. *)
Inductive json : Type :=
| JNull
| JBool (b : bool)
| JInt (n : Z)
| JFloat (f : spec_float)
| JStr (s : string)
| JArr (l : list json)
| JObj (m : gmap string json).

(** [type(v).__name__] *)
Definition type_name (v : json) : string :=
  match v with
  | JNull => "NoneType"
  | JBool _ => "bool"
  | JInt _ => "int"
  | JFloat _ => "float"
  | JStr _ => "str"
  | JArr _ => "list"
  | JObj _ => "dict"
  end.

(** [bool(v)] *)
Definition truthy (v : json) : bool :=
  match v with
  | JNull => false
  | JBool b => b
  | JInt n => negb (n =? 0)%Z
  | JFloat (S754_zero _) => false
  | JFloat _ => true
  | JStr s => nonempty s
  | JArr l => match l with [] => false | _ => true end
  | JObj m => negb (bool_decide (m = ∅))
  end.

(** [v == s] for a string literal [s] *)
Definition eq_str (v : json) (s : string) : bool :=
  match v with
  | JStr t => String.eqb t s
  | _ => false
  end.

(** Exceptions: the class name and [str(e)].  The exceptions of the
    programs are subclasses of [Exception] (what [except Exception]
    catches), and Streamlit's StopException, which is raised outside any
    [try] and caught by the script runner. *)
Record exn : Type := Exn { exn_class : string; exn_str : string }.

Inductive outcome (A : Type) : Type :=
| Ret (a : A)
| Raise (e : exn)
| OutOfFuel.
Arguments Ret {A} a.
Arguments Raise {A} e.
Arguments OutOfFuel {A}.

(** [v.get(key)]: [None] when the key is absent; an object that is not a
    dictionary has no [get]. *)
Definition no_get (v : json) : exn :=
  Exn "AttributeError" ("'" +:+ type_name v +:+ "' object has no attribute 'get'").

Definition py_get (v : json) (key : string) : outcome json :=
  match v with
  | JObj m => Ret (default JNull (m !! key))
  | _ => Raise (no_get v)
  end.

(** [v.get(key, dflt)] *)
Definition py_get_default (v : json) (key : string) (dflt : json) : outcome json :=
  match v with
  | JObj m => Ret (default dflt (m !! key))
  | _ => Raise (no_get v)
  end.

(** [key in v], used on dictionaries only *)
Definition py_contains (key : string) (v : json) : bool :=
  match v with
  | JObj m => bool_decide (is_Some (m !! key))
  | _ => false
  end.

(** [v[key]]; the programs subscript dictionaries only (another receiver
    raises a TypeError whose text depends on its type). *)
Definition py_getitem (v : json) (key : string) : outcome json :=
  match v with
  | JObj m =>
      match m !! key with
      | Some x => Ret x
      | None => Raise (Exn "KeyError" ("'" +:+ key +:+ "'"))
      end
  | _ => Raise (Exn "TypeError" ("'" +:+ type_name v +:+ "' object is not subscriptable"))
  end.

(** [s + v] for a string [s] *)
Definition py_str_add (s : string) (v : json) : outcome string :=
  match v with
  | JStr t => Ret (s +:+ t)
  | _ => Raise (Exn "TypeError"
                  ("can only concatenate str (not " +:+ q (type_name v) +:+ ") to str"))
  end.

(** ** Conversation, model responses, listings *)

(** A chat message, the dictionary with the keys role and content. *)
Record message : Type := Msg { role : string; content : json }.

(** What [litellm.completion] returns, as far as [analyze_query] reads it:
    [response.choices[0].message.content], where the content of a message
    may be [None]. *)
Record Message : Type := { msg_content : option string }.
Record Choice : Type := { choice_message : Message }.
Record ModelResponse : Type := { choices : list Choice }.

(** A reply that consists of one choice with a text. *)
Definition text_reply (text : string) : ModelResponse :=
  {| choices := [ {| choice_message := {| msg_content := Some text |} |} ] |}.

(** The buttons of the form. *)
Inductive button : Type := SearchButton | ClarifyButton.

#[global] Instance button_eq_dec : EqDecision button.
Proof. solve_decision. Defined.

(** What the browser sends with one run of the Streamlit script: the two
    text boxes and the button that was clicked, if any.  Streamlit reruns
    the script once per interaction and [st.button] is true only for the
    button that triggered the run, so at most one button is clicked. *)
Record ui_input : Type := {
  ui_query : string;
  ui_clarify : string;
  ui_clicked : option button
}.

(** The external events of a run, in the order they happen. *)
Inductive event : Type :=
| EvInput (prompt : string)               (* input(prompt) *)
| EvPrint (v : json)                      (* print(v) *)
| EvCompletion (messages : list message)  (* litellm.completion(messages=...) *)
| EvFind (filter_dict : json)             (* collection.find(filter_dict) *)
| EvWidget (kind : string) (v : json).    (* st.<kind>(v) *)

(** The calls to the two remote services among the events. *)
Inductive service : Type := ModelCall | StoreQuery.

Definition service_of (e : event) : option service :=
  match e with
  | EvCompletion _ => Some ModelCall
  | EvFind _ => Some StoreQuery
  | _ => None
  end.

Definition service_calls (evs : list event) : list service :=
  omap service_of evs.

(** ** The instruction prompt *)

(** The fixed instruction text, [SYSTEM_PROMPT] of agent.py, line by line;
    the text starts and ends with a line feed. *)
Definition SYSTEM_PROMPT_lines : list string :=
  [
    "You are an expert real estate assistant that converts search queries into MongoDB filters.";
    EmptyString;
    "Your tasks:";
    "1. Analyze if the query has complete information for a property search";
    "2. If incomplete, ask specific clarifying questions";
    "3. If complete, convert to MongoDB filter JSON";
    EmptyString;
    "Required fields for a complete search:";
    "- Property type (flat, house, etc.) or BHK";
    "- Location (area, city, etc.)";
    "- Budget/price range";
    EmptyString;
    "Rules for conversion:";
    "1. Return JSON with " +:+ q "status" +:+ " (" +:+ q "complete" +:+ " or " +:+ q "incomplete" +:+ ")";
    "2. If " +:+ q "incomplete" +:+ ", include " +:+ q "question" +:+ " to ask for missing info";
    "3. If " +:+ q "complete" +:+ ", include " +:+ q "filters" +:+ " with MongoDB query";
    "4. Use proper field names: flatType, locality, price";
    "5. For numbers, ensure numeric values (not strings)";
    EmptyString;
    "Example outputs:";
    "User: " +:+ q "I want a flat";
    "{";
    "  " +:+ q "status" +:+ ": " +:+ q "incomplete" +:+ ",";
    "  " +:+ q "question" +:+ ": " +:+ q "What BHK configuration are you looking for, and in which area? Also, what's your budget range?";
    "}";
    EmptyString;
    "User: " +:+ q "3BHK in Gachibowli under 20k";
    "{";
    "  " +:+ q "status" +:+ ": " +:+ q "complete" +:+ ",";
    "  " +:+ q "filters" +:+ ": {";
    "    " +:+ q "flatType" +:+ ": " +:+ q "3BHK" +:+ ",";
    "    " +:+ q "locality" +:+ ": {" +:+ q "$regex" +:+ ": " +:+ q "gachibowli" +:+ ", " +:+ q "$options" +:+ ": " +:+ q "i" +:+ "},";
    "    " +:+ q "price" +:+ ": {" +:+ q "$lte" +:+ ": 20000}";
    "  }";
    "}";
    EmptyString;
    "User: " +:+ q "luxury apartments";
    "{";
    "  " +:+ q "status" +:+ ": " +:+ q "incomplete" +:+ ",";
    "  " +:+ q "question" +:+ ": " +:+ q "In which area are you looking for luxury apartments? What's your preferred BHK size and budget?";
    "}"
  ].

Definition SYSTEM_PROMPT : string :=
  nl +:+ join nl SYSTEM_PROMPT_lines +:+ nl.

(** The list [messages] of [analyze_query], lines 66-70: the instruction,
    the history, the new utterance. *)
Definition request_messages (query : string) (conversation_history : list message)
  : list message :=
  [Msg "system" (JStr SYSTEM_PROMPT)] ++ conversation_history ++ [Msg "user" (JStr query)].

(** ** The programs *)

Section Agent.

(** The values stored in listing documents and Python's [str] on them. *)
Context {value : Type}.
Variable py_str : value -> string.

(** A listing record: a dictionary from attribute names to values. *)
Abbreviation document := (gmap string value).

(** The document store behind [collection] and MongoDB's evaluation of
    [collection.find(filter)] on it, materialised by [list(...)]. *)
Context {store : Type}.
Variable coll_find : store -> json -> outcome (list document).

(** [litellm.completion] with the fixed model, credentials and
    temperature 0, as a function of the messages it is sent. *)
Variable litellm_completion : list message -> outcome ModelResponse.

(** [json.loads] on a text. *)
Variable json_loads : string -> outcome json.

(** [st.session_state] once the four guarded initialisations at the top
    of app.py have run. *)
Record session_state : Type := {
  conversation_history : list message;
  filters : json;
  results : option (list document);
  last_question : json
}.

(** The session of a new browser tab. *)
Definition new_session : session_state :=
  {| conversation_history := [];
     filters := JObj ∅;
     results := None;
     last_question := JNull |}.

Record world : Type := World {
  w_stdin : list string;       (* the lines the user will type *)
  w_db : store;                (* the data of the collection *)
  w_session : session_state    (* the Streamlit session *)
}.

(** *** Computations *)

(** A computation returns its outcome, the new world and the external
    events it caused, oldest first. *)
Definition M (A : Type) : Type := world -> outcome A * world * list event.

Definition ret {A} (a : A) : M A := fun w => (Ret a, w, []).

Definition bind {A B} (c : M A) (k : A -> M B) : M B :=
  fun w =>
    match c w with
    | (Ret a, w1, evs1) => let '(r, w2, evs2) := k a w1 in (r, w2, evs1 ++ evs2)
    | (Raise e, w1, evs1) => (Raise e, w1, evs1)
    | (OutOfFuel, w1, evs1) => (OutOfFuel, w1, evs1)
    end.

Definition lift {A} (o : outcome A) : M A := fun w => (o, w, []).

Definition emit (e : event) : M unit := fun w => (Ret tt, w, [e]).

(** [try: body  except Exception as e: handler e] *)
Definition try_except {A} (body : M A) (handler : exn -> M A) : M A :=
  fun w =>
    match body w with
    | (Raise e, w1, evs1) => let '(r, w2, evs2) := handler e w1 in (r, w2, evs1 ++ evs2)
    | r => r
    end.

Declare Scope prog_scope.
Notation "x <- c1 ;; c2" := (bind c1 (fun x => c2))
  (at level 100, c1 at next level, c2 at level 200, right associativity) : prog_scope.
Notation "c1 ;; c2" := (bind c1 (fun _ => c2))
  (at level 100, c2 at level 200, right associativity) : prog_scope.
Local Open Scope prog_scope.

(** The outcome, final world and events of a run. *)
Definition outcome_of {A} (r : outcome A * world * list event) : outcome A := r.1.1.
Definition world_of {A} (r : outcome A * world * list event) : world := r.1.2.
Definition events_of {A} (r : outcome A * world * list event) : list event := r.2.

(** *** The console, the services, the session *)

(** [input(prompt)] *)
Definition input (prompt : string) : M string :=
  fun w =>
    match w_stdin w with
    | line :: rest =>
        (Ret line, {| w_stdin := rest; w_db := w_db w; w_session := w_session w |},
         [EvInput prompt])
    | [] => (Raise (Exn "EOFError" "EOF when reading a line"), w, [EvInput prompt])
    end.

(** [print(v)] *)
Definition print (v : json) : M unit := emit (EvPrint v).

(** [litellm.completion(model=..., messages=messages, temperature=0, ...)];
    the deployment name and the credentials are taken as configured. *)
Definition completion (messages : list message) : M ModelResponse :=
  emit (EvCompletion messages) ;; lift (litellm_completion messages).

(** [list(collection.find(filter_dict))]: a read of the store. *)
Definition find (filter_dict : json) : M (list document) :=
  emit (EvFind filter_dict) ;; fun w => (coll_find (w_db w) filter_dict, w, []).

(** [st.<kind>(v)] *)
Definition st (kind : string) (v : json) : M unit := emit (EvWidget kind v).

Definition get_session : M session_state := fun w => (Ret (w_session w), w, []).

Definition set_session (f : session_state -> session_state) : M unit :=
  fun w =>
    (Ret tt, {| w_stdin := w_stdin w; w_db := w_db w; w_session := f (w_session w) |}, []).

(** *** agent.py *)

(** [response.choices[0]] *)
Definition first_choice (response : ModelResponse) : outcome Choice :=
  match choices response with
  | c :: _ => Ret c
  | [] => Raise (Exn "IndexError" "list index out of range")
  end.

(** [json.loads(content)]: a content that is [None] is a TypeError. *)
Definition loads (content : option string) : outcome json :=
  match content with
  | Some text => json_loads text
  | None => Raise (Exn "TypeError"
                     "the JSON object must be str, bytes or bytearray, not NoneType")
  end.

(** A message content as a Python value. *)
Definition content_value (content : option string) : json :=
  match content with
  | Some text => JStr text
  | None => JNull
  end.

(** The record built at line 87. *)
Definition error_record (e : exn) (raw_response : json) : json :=
  JObj (<["status" := JStr "error"]>
        (<["error" := JStr (exn_str e)]>
         (<["raw_response" := raw_response]> ∅))).

(** [analyze_query(query, conversation_history)], lines 64-87.  The model
    is called before the [try]; the handler reads
    [response.choices[0].message] again. *)
Definition analyze_query (query : string) (conversation_history : list message)
  : M json :=
  let messages := request_messages query conversation_history in
  response <- completion messages ;;
  try_except
    (c <- lift (first_choice response) ;;
     let content := msg_content (choice_message c) in
     lift (loads content))
    (fun e =>
       c <- lift (first_choice response) ;;
       ret (error_record e (content_value (msg_content (choice_message c))))).

(** [search_properties(filter_dict)], lines 89-91. *)
Definition search_properties (filter_dict : json) : M (list document) :=
  find filter_dict.

(** [prop.get(key, 'N/A')] inside an f-string: the text of the value, or
    the placeholder. *)
Definition shown (prop : document) (key : string) : string :=
  from_option py_str "N/A" (prop !! key).

(** [prop_str], lines 100-107. *)
Definition prop_str (prop : document) : string :=
  "Property Name : " +:+ q (shown prop "Property Name") +:+ nl +:+
  "flatType : " +:+ q (shown prop "flatType") +:+ nl +:+
  "locality : " +:+ q (shown prop "locality") +:+ nl +:+
  "Rent/Buy : " +:+ q (shown prop "Rent/Buy") +:+ nl +:+
  "Description : " +:+ q (shown prop "Description") +:+ nl +:+
  "price : " +:+ shown prop "price" +:+ nl.

(** [format_results(properties)], lines 93-110: the loop appends one text
    per listing to [result], which is then joined. *)
Definition format_results (properties : list document) : string :=
  match properties with
  | [] => "No properties found matching your criteria."
  | _ =>
      let result := fold_left (fun result prop => result ++ [prop_str prop]) properties [] in
      join nl result
  end.

(** What one pass through the body of [while True] decides. *)
Inductive loop_exit : Type := Continue | Break.

(** The body of the loop of [property_search_flow], lines 121-164, on the
    local variables [conversation_history] and [filters]; it returns
    their new values. *)
Definition flow_body (conversation_history : list message) (filters : json)
  : M (loop_exit * list message * json) :=
  line <- input (nl +:+ "Your search query: ") ;;
  let user_input := strip line in
  if str_in (lower user_input) ["exit"; "quit"] then
    print (JStr "Goodbye!") ;;
    ret (Break, conversation_history, filters)
  else
    analysis <- analyze_query user_input conversation_history ;;
    let conversation_history := conversation_history ++ [Msg "user" (JStr user_input)] in
    status <- lift (py_get analysis "status") ;;
    if eq_str status "error" then
      raw <- lift (py_get_default analysis "raw_response" (JStr "No response received.")) ;;
      print raw ;;
      ret (Continue, conversation_history, filters)
    else if eq_str status "incomplete" then
      question <- lift (py_getitem analysis "question") ;;
      text <- lift (py_str_add nl question) ;;
      print (JStr text) ;;
      question <- lift (py_getitem analysis "question") ;;
      let conversation_history := conversation_history ++ [Msg "assistant" question] in
      ret (Continue, conversation_history, filters)
    else if eq_str status "complete" && py_contains "filters" analysis then
      filters <- lift (py_getitem analysis "filters") ;;
      print (JStr "Searching properties:") ;;
      results <- search_properties filters ;;
      print (JStr (nl +:+ format_results results)) ;;
      answer <- input (nl +:+ "Would you like to refine your search? (yes/no): ") ;;
      let refine := lower answer in
      if str_in refine ["y"; "yes"] then
        print (JStr "Please provide additional filters or modifications") ;;
        ret (Continue, conversation_history, filters)
      else
        print (JStr "Thank you for using Property Search!") ;;
        ret (Break, conversation_history, filters)
    else
      print (JStr (nl +:+ "Sorry, I could not process your request. Please try again.")) ;;
      ret (Continue, conversation_history, filters).

(** [while True: body]; [fuel] bounds the number of passes. *)
Fixpoint flow_loop (fuel : nat) (conversation_history : list message) (filters : json)
  : M unit :=
  match fuel with
  | O => lift OutOfFuel
  | S fuel' =>
      r <- flow_body conversation_history filters ;;
      match r with
      | (Break, _, _) => ret tt
      | (Continue, conversation_history, filters) =>
          flow_loop fuel' conversation_history filters
      end
  end.

(** [property_search_flow()], lines 112-164. *)
Definition property_search_flow (fuel : nat) : M unit :=
  print (JStr "Welcome to Property Search! How can I help you?") ;;
  flow_loop fuel [] (JObj ∅).

(** *** app.py *)

(** Assignments to the attributes of [st.session_state]. *)
Definition append_history (m : message) (ss : session_state) : session_state :=
  {| conversation_history := conversation_history ss ++ [m];
     filters := filters ss; results := results ss; last_question := last_question ss |}.

Definition set_filters (f : json) (ss : session_state) : session_state :=
  {| conversation_history := conversation_history ss;
     filters := f; results := results ss; last_question := last_question ss |}.

Definition set_results (r : option (list document)) (ss : session_state) : session_state :=
  {| conversation_history := conversation_history ss;
     filters := filters ss; results := r; last_question := last_question ss |}.

Definition set_last_question (v : json) (ss : session_state) : session_state :=
  {| conversation_history := conversation_history ss;
     filters := filters ss; results := results ss; last_question := v |}.

(** [st.text_input(label, "")]: shows the box, returns its text. *)
Definition text_input (label : string) (text : string) : M string :=
  st "text_input" (JStr label) ;; ret text.

(** [st.button(label)]: shows the button, tells whether it was clicked. *)
Definition st_button (label : string) (b : button) (ui : ui_input) : M bool :=
  st "button" (JStr label) ;;
  ret (bool_decide (ui_clicked ui = Some b)).

(** [st.stop()]: ends the run of the script. *)
Definition st_stop {A} : M A := lift (Raise (Exn "StopException" EmptyString)).

(** The body of [if st.button("Search") and user_input.strip()], lines 20-38. *)
Definition search_block (user_input : string) : M unit :=
  ss <- get_session ;;
  analysis <- analyze_query user_input (conversation_history ss) ;;
  set_session (append_history (Msg "user" (JStr user_input))) ;;
  status <- lift (py_get analysis "status") ;;
  (if eq_str status "error" then
     st "error" (JStr "Sorry, there was an error understanding your request.") ;;
     raw <- lift (py_get_default analysis "raw_response" (JStr "No response received.")) ;;
     st "write" raw ;;
     st_stop
   else ret tt) ;;
  if eq_str status "incomplete" then
    question <- lift (py_getitem analysis "question") ;;
    set_session (set_last_question question) ;;
    set_session (set_results None)
  else if eq_str status "complete" && py_contains "filters" analysis then
    picked <- lift (py_getitem analysis "filters") ;;
    set_session (set_filters picked) ;;
    ss <- get_session ;;
    found <- search_properties (filters ss) ;;
    set_session (set_results (Some found)) ;;
    set_session (set_last_question JNull)
  else
    st "error" (JStr "Sorry, I could not process your request. Please try again.") ;;
    set_session (set_last_question JNull) ;;
    set_session (set_results None).

(** The body of [if st.button("Submit Clarification") and
    clarification.strip()], lines 44-56. *)
Definition clarify_block (clarification : string) : M unit :=
  ss <- get_session ;;
  analysis <- analyze_query clarification (conversation_history ss) ;;
  set_session (append_history (Msg "user" (JStr clarification))) ;;
  status <- lift (py_get analysis "status") ;;
  if eq_str status "incomplete" then
    question <- lift (py_getitem analysis "question") ;;
    set_session (set_last_question question) ;;
    set_session (set_results None)
  else if eq_str status "complete" && py_contains "filters" analysis then
    picked <- lift (py_getitem analysis "filters") ;;
    set_session (set_filters picked) ;;
    ss <- get_session ;;
    found <- search_properties (filters ss) ;;
    set_session (set_results (Some found)) ;;
    set_session (set_last_question JNull)
  else
    st "error" (JStr "Sorry, I could not process your request. Please try again.") ;;
    set_session (set_last_question JNull) ;;
    set_session (set_results None).

(** One listing in the results panel, lines 62-68. *)
Definition show_listing (prop : document) : M unit :=
  st "markdown" (JStr ("**Property Name:** " +:+ shown prop "Property Name")) ;;
  st "write" (JStr ("flatType: " +:+ shown prop "flatType")) ;;
  st "write" (JStr ("locality: " +:+ shown prop "locality")) ;;
  st "write" (JStr ("Rent/Buy: " +:+ shown prop "Rent/Buy")) ;;
  st "write" (JStr ("Description: " +:+ shown prop "Description")) ;;
  st "write" (JStr ("price: " +:+ shown prop "price")) ;;
  st "markdown" (JStr "---").

(** [for x in xs: body x] *)
Fixpoint for_each {A} (xs : list A) (body : A -> M unit) : M unit :=
  match xs with
  | [] => ret tt
  | x :: xs' => body x ;; for_each xs' body
  end.

(** The results panel, lines 58-70. *)
Definition results_panel : M unit :=
  ss <- get_session ;;
  match results ss with
  | Some listings =>
      st "subheader" (JStr "Search Results") ;;
      match listings with
      | [] => st "warning" (JStr "No properties found matching your criteria.")
      | _ => for_each listings show_listing
      end
  | None => ret tt
  end.

(** The head of the script, lines 4-17: page, title, and the search box. *)
Definition header (ui : ui_input) : M string :=
  st "set_page_config" (JStr "Real Estate Property Search") ;;
  st "title" (JStr "🏠 Real Estate Property Search AI Agent") ;;
  st "write" (JStr "Enter your property search query below:") ;;
  text_input "Your search query" (ui_query ui).

(** Lines 19-38. *)
Definition search_section (ui : ui_input) (user_input : string) : M unit :=
  clicked <- st_button "Search" SearchButton ui ;;
  if clicked && nonempty (strip user_input) then search_block user_input
  else ret tt.

(** Lines 40-56. *)
Definition clarification_section (ui : ui_input) : M unit :=
  ss <- get_session ;;
  if truthy (last_question ss) then
    st "info" (last_question ss) ;;
    clarification <- text_input "Clarify your requirements" (ui_clarify ui) ;;
    clicked <- st_button "Submit Clarification" ClarifyButton ui ;;
    if clicked && nonempty (strip clarification) then clarify_block clarification
    else ret tt
  else ret tt.

(** One run of the script app.py. *)
Definition script (ui : ui_input) : M unit :=
  user_input <- header ui ;;
  search_section ui user_input ;;
  clarification_section ui ;;
  results_panel.

(** Streamlit's script runner: [st.stop()] ends the run normally, any
    other exception is reported. *)
Definition app (ui : ui_input) : M unit :=
  fun w =>
    match script ui w with
    | (Raise e, w1, evs) =>
        if String.eqb (exn_class e) "StopException" then (Ret tt, w1, evs)
        else (Raise e, w1, evs)
    | r => r
    end.

End Agent.

Arguments world : clear implicits.
Arguments session_state : clear implicits.
Arguments M : clear implicits.

(** ** The vocabulary of the specification *)

Section Vocabulary.

Context {value : Type}.
Variable py_str : value -> string.

(** The status discriminator of an interpretation result. *)
Definition status_is (s : string) (v : json) : bool :=
  match v with
  | JObj m => eq_str (default JNull (m !! "status")) s
  | _ => false
  end.

Definition carries_question (v : json) : bool := py_contains "question" v.
Definition carries_filter (v : json) : bool := py_contains "filters" v.

(** The structure the model is asked for: status "complete" with a
    filters object, or status "incomplete" with a question text. *)
Definition expected_structure (v : json) : bool :=
  match v with
  | JObj m =>
      (status_is "complete" v && carries_filter v)
      || (status_is "incomplete" v
          && match m !! "question" with Some (JStr _) => true | _ => false end)
  | _ => false
  end.

(** A reply text is parsed as the expected structure. *)
Definition parses_as_expected (decoded : outcome json) : bool :=
  match decoded with
  | Ret v => expected_structure v
  | _ => false
  end.

(** Exactly one variant is populated: never both a question and a
    filter, and a Failed result has neither. *)
Definition one_variant (v : json) : bool :=
  negb (carries_question v && carries_filter v)
  && (if status_is "error" v
      then negb (carries_question v) && negb (carries_filter v)
      else true).

(** The fields a Filter Expression may use. *)
Definition filter_fields : list string := ["flatType"; "locality"; "price"].

Definition is_number (v : json) : bool :=
  match v with
  | JInt _ | JFloat _ => true
  | _ => false
  end.

(** A condition on a numeric field: a number, or comparison operators
    whose operands are numbers. *)
Definition numeric_condition (v : json) : bool :=
  match v with
  | JInt _ | JFloat _ => true
  | JObj ops => forallb (fun kv => is_number kv.2) (map_to_list ops)
  | _ => false
  end.

(** A Filter Expression within the schema: an object whose fields are
    among [filter_fields] and whose price condition is numeric. *)
Definition in_schema (f : json) : bool :=
  match f with
  | JObj m =>
      forallb
        (fun kv =>
           str_in kv.1 filter_fields
           && (if String.eqb kv.1 "price" then numeric_condition kv.2 else true))
        (map_to_list m)
  | _ => false
  end.

(** The filters sent to the store, among the events of a run. *)
Definition store_queries (evs : list event) : list json :=
  omap (fun e => match e with EvFind f => Some f | _ => None end) evs.

(** The model answers the request for [query] after [history] with a
    reply whose first choice holds [text]. *)
Definition model_says (litellm_completion : list message -> outcome ModelResponse)
    (query : string) (history : list message) (text : string) : Prop :=
  exists response c rest,
    litellm_completion (request_messages query history) = Ret response
    /\ choices response = c :: rest
    /\ msg_content (choice_message c) = Some text.

(** [after] extends [before] by user turns only. *)
Definition only_user_turns (before after : list message) : Prop :=
  exists added, after = before ++ added /\ Forall (fun m => role m = "user") added.

(** What a run printed on the console. *)
Definition printed (evs : list event) : list json :=
  omap (fun e => match e with EvPrint v => Some v | _ => None end) evs.

(** The widgets among the events of a run: kind and content. *)
Definition widgets (evs : list event) : list (string * json) :=
  omap (fun e => match e with EvWidget kind v => Some (kind, v) | _ => None end) evs.

(** The world once a console line was read: [rest] is what remains to
    be typed. *)
Definition after_line {store : Type} (w : world value store) (rest : list string)
  : world value store :=
  {| w_stdin := rest; w_db := w_db w; w_session := w_session w |}.

(** The shapes the presentation loop recognises: status "error",
    status "incomplete", or status "complete" with a "filters" key. *)
Definition recognised (v : json) : bool :=
  status_is "error" v || status_is "incomplete" v
  || (status_is "complete" v && carries_filter v).

(** The world with another Streamlit session. *)
Definition with_session {store : Type} (w : world value store)
    (ss : session_state value) : world value store :=
  {| w_stdin := w_stdin w; w_db := w_db w; w_session := ss |}.

(** The widgets of the head of the form, lines 4-17. *)
Definition header_events : list event :=
  [EvWidget "set_page_config" (JStr "Real Estate Property Search");
   EvWidget "title" (JStr "🏠 Real Estate Property Search AI Agent");
   EvWidget "write" (JStr "Enter your property search query below:");
   EvWidget "text_input" (JStr "Your search query")].


(** The shape of one user turn: no call, one model call, or one model
    call followed by one store query. *)
Definition one_turn (calls : list service) : Prop :=
  calls = [] \/ calls = [ModelCall] \/ calls = [ModelCall; StoreQuery].

(** The rendering of a listing in the words of the specification: six
    labelled fields in a fixed order, the first five between quotes,
    each with the placeholder when the attribute is absent. *)
Definition listing_fields : list (string * bool) :=
  [("Property Name", true); ("flatType", true); ("locality", true);
   ("Rent/Buy", true); ("Description", true); ("price", false)].

Definition field_text (prop : gmap string value) (key : string) : string :=
  match prop !! key with
  | Some v => py_str v
  | None => "N/A"
  end.

Definition labelled (prop : gmap string value) (field : string * bool) : string :=
  let '(key, quoted) := field in
  key +:+ " : " +:+ (if quoted then q (field_text prop key) else field_text prop key) +:+ nl.

Definition listing_text (prop : gmap string value) : string :=
  String.concat EmptyString (map (labelled prop) listing_fields).

(** What the results panel of the form shows for the held result set:
    nothing when there is none, a warning when it is empty, else the
    six labelled fields of every listing, in order. *)
Definition listing_widgets (prop : gmap string value) : list event :=
  [EvWidget "markdown" (JStr ("**Property Name:** " +:+ field_text prop "Property Name"));
   EvWidget "write" (JStr ("flatType: " +:+ field_text prop "flatType"));
   EvWidget "write" (JStr ("locality: " +:+ field_text prop "locality"));
   EvWidget "write" (JStr ("Rent/Buy: " +:+ field_text prop "Rent/Buy"));
   EvWidget "write" (JStr ("Description: " +:+ field_text prop "Description"));
   EvWidget "write" (JStr ("price: " +:+ field_text prop "price"));
   EvWidget "markdown" (JStr "---")].

Definition panel_widgets (held : option (list (gmap string value))) : list event :=
  match held with
  | None => []
  | Some [] =>
      [EvWidget "subheader" (JStr "Search Results");
       EvWidget "warning" (JStr "No properties found matching your criteria.")]
  | Some listings =>
      EvWidget "subheader" (JStr "Search Results")
        :: concat (map listing_widgets listings)
  end.

End Vocabulary.

(** ** Three sentences of the specification, as they are written *)

Section Stated.

Context {value store : Type}.
Variable py_str : value -> string.
Variable coll_find : store -> json -> outcome (list (gmap string value)).
Variable litellm_completion : list message -> outcome ModelResponse.
Variable json_loads : string -> outcome json.

(** "If the reply cannot be parsed as the expected structure, returns
    the Failed variant carrying the raw text and the parse error." *)
Definition failed_on_every_unexpected_reply : Prop :=
  forall query history (w : world value store) text,
    model_says litellm_completion query history text ->
    parses_as_expected (json_loads text) = false ->
    exists m,
      outcome_of (analyze_query litellm_completion json_loads query history w)
        = Ret (JObj m)
      /\ m !! "status" = Some (JStr "error")
      /\ m !! "raw_response" = Some (JStr text).

(** "The resulting Filter Expression contains only fields from the fixed
    set, with correctly typed values": every filter a console turn sends
    to the store is within the schema. *)
Definition every_filter_in_schema : Prop :=
  forall history fl (w : world value store) f,
    f ∈ store_queries
          (events_of (flow_body py_str coll_find litellm_completion json_loads
                        history fl w)) ->
    in_schema f = true.

(** "Exactly one variant is populated per interpretation; never both a
    question and a filter." *)
Definition every_result_one_variant : Prop :=
  forall query history (w : world value store) v,
    outcome_of (analyze_query litellm_completion json_loads query history w) = Ret v ->
    one_variant v = true.

End Stated.

(** ** Sample collaborators

  Concrete stand-ins for the external services, used to run the
  programs on explicit inputs. *)

Module Sample.

(** *** A JSON decoder

    [json.loads] of CPython 3.12 on ASCII texts made of objects, arrays,
    strings, integers and the literals.  Numbers with a fraction or an
    exponent and [\u] escapes are not covered: the decoder then gives
    no answer ([GiveUp]). *)

Inductive scan (A : Type) : Type :=
| Ok (a : A) (rest : string) (pos : nat)
| Fail (msg : string) (pos : nat)
| GiveUp.
Arguments Ok {A} a rest pos.
Arguments Fail {A} msg pos.
Arguments GiveUp {A}.

Definition code (c : ascii) : nat := nat_of_ascii c.

(** Space, TAB, LF and CR. *)
Definition is_ws (c : ascii) : bool :=
  let n := code c in
  (n =? 32)%nat || (n =? 9)%nat || (n =? 10)%nat || (n =? 13)%nat.

Definition is_digit (c : ascii) : bool :=
  let n := code c in (48 <=? n)%nat && (n <=? 57)%nat.

Fixpoint skip_ws (s : string) (pos : nat) : string * nat :=
  match s with
  | String c s' => if is_ws c then skip_ws s' (S pos) else (s, pos)
  | EmptyString => (s, pos)
  end.

(** The character a backslash escape stands for. *)
Definition unescape (c : ascii) : option ascii :=
  let n := code c in
  if (n =? 34)%nat then Some c                     (* quote *)
  else if (n =? 92)%nat then Some c                (* backslash *)
  else if (n =? 47)%nat then Some c                (* slash *)
  else if (n =? 98)%nat then Some (ascii_of_nat 8)   (* b *)
  else if (n =? 102)%nat then Some (ascii_of_nat 12) (* f *)
  else if (n =? 110)%nat then Some (ascii_of_nat 10) (* n *)
  else if (n =? 114)%nat then Some (ascii_of_nat 13) (* r *)
  else if (n =? 116)%nat then Some (ascii_of_nat 9)  (* t *)
  else None.

(** The body of a string, after its opening quote at offset [start];
    [acc] is the text read so far, reversed. *)
Fixpoint scan_string (s : string) (pos start : nat) (acc : list ascii) : scan string :=
  match s with
  | EmptyString => Fail "Unterminated string starting at" start
  | String c s' =>
      if (code c =? 34)%nat then Ok (string_of_list_ascii (rev acc)) s' (S pos)
      else if (code c =? 92)%nat then
        match s' with
        | EmptyString => Fail "Unterminated string starting at" start
        | String e s'' =>
            if (code e =? 117)%nat then GiveUp
            else match unescape e with
                 | Some x => scan_string s'' (S (S pos)) start (x :: acc)
                 | None => Fail "Invalid \escape" pos
                 end
        end
      else if (code c <=? 31)%nat then Fail "Invalid control character at" pos
      else scan_string s' (S pos) start (c :: acc)
  end.

(** The digits at the head of [s], as a number continuing [acc]. *)
Fixpoint scan_digits (s : string) (pos : nat) (acc : Z) : Z * string * nat :=
  match s with
  | String c s' =>
      if is_digit c then scan_digits s' (S pos) (10 * acc + Z.of_nat (code c - 48))%Z
      else (acc, s, pos)
  | EmptyString => (acc, s, pos)
  end.

Definition starts_with_digit (s : string) : bool :=
  match s with String c _ => is_digit c | EmptyString => false end.

(** Does a fraction or an exponent follow the integer part? *)
Definition float_follows (s : string) : bool :=
  match s with
  | String c s' =>
      if (code c =? 46)%nat then starts_with_digit s'
      else if (code c =? 101)%nat || (code c =? 69)%nat then
        match s' with
        | String d s'' =>
            if (code d =? 43)%nat || (code d =? 45)%nat then starts_with_digit s''
            else is_digit d
        | EmptyString => false
        end
      else false
  | EmptyString => false
  end.

(** An integer at the head of [s]: a zero, or a non-zero digit and more
    digits (the sign was read by the caller); [start] is the offset an
    error is reported at. *)
Definition scan_int (negative : bool) (s : string) (pos start : nat) : scan json :=
  match s with
  | String c s' =>
      if (code c =? 48)%nat then
        if float_follows s' then GiveUp else Ok (JInt 0) s' (S pos)
      else if is_digit c then
        let '(n, rest, pos') := scan_digits s pos 0 in
        if float_follows rest then GiveUp
        else Ok (JInt (if negative then - n else n)%Z) rest pos'
      else Fail "Expecting value" start
  | EmptyString => Fail "Expecting value" start
  end.

(** [s] without the prefix [word], when it starts with it. *)
Fixpoint strip_prefix (word s : string) : option string :=
  match word, s with
  | EmptyString, _ => Some s
  | String a word', String b s' =>
      if Ascii.eqb a b then strip_prefix word' s' else None
  | String _ _, EmptyString => None
  end.

(** A literal [word] at the head of [s]. *)
Definition scan_word (word : string) (v : json) (s : string) (pos : nat) : scan json :=
  match strip_prefix word s with
  | Some rest => Ok v rest (pos + String.length word)
  | None => Fail "Expecting value" pos
  end.

Definition scan_map {A B} (f : A -> B) (r : scan A) : scan B :=
  match r with
  | Ok a rest pos => Ok (f a) rest pos
  | Fail msg pos => Fail msg pos
  | GiveUp => GiveUp
  end.

(** [scan_once]: one JSON value at the head of [s]; [scan_items] and
    [scan_members] read the rest of an array and of an object whose
    first element starts at [s].  Every call consumes one unit of
    [fuel]. *)
Fixpoint scan_once (fuel : nat) (s : string) (pos : nat) {struct fuel} : scan json :=
  match fuel with
  | O => GiveUp
  | S fuel =>
      match s with
      | EmptyString => Fail "Expecting value" pos
      | String c s' =>
          let n := code c in
          if (n =? 34)%nat then scan_map JStr (scan_string s' (S pos) pos [])
          else if (n =? 123)%nat then
            let '(s1, p1) := skip_ws s' (S pos) in
            match s1 with
            | String c1 s1' =>
                if (code c1 =? 125)%nat then Ok (JObj ∅) s1' (S p1)
                else scan_members fuel s1 p1 ∅
            | EmptyString => scan_members fuel s1 p1 ∅
            end
          else if (n =? 91)%nat then
            let '(s1, p1) := skip_ws s' (S pos) in
            match s1 with
            | String c1 s1' =>
                if (code c1 =? 93)%nat then Ok (JArr []) s1' (S p1)
                else scan_items fuel s1 p1 []
            | EmptyString => scan_items fuel s1 p1 []
            end
          else if (n =? 110)%nat then scan_word "null" JNull s pos
          else if (n =? 116)%nat then scan_word "true" (JBool true) s pos
          else if (n =? 102)%nat then scan_word "false" (JBool false) s pos
          else if (n =? 78)%nat then scan_word "NaN" (JFloat S754_nan) s pos
          else if (n =? 73)%nat then
            scan_word "Infinity" (JFloat (S754_infinity false)) s pos
          else if (n =? 45)%nat then
            match strip_prefix "Infinity" s' with
            | Some rest => Ok (JFloat (S754_infinity true)) rest (pos + 9)
            | None => scan_int true s' (S pos) pos
            end
          else scan_int false s pos pos
      end
  end
with scan_items (fuel : nat) (s : string) (pos : nat) (acc : list json)
       {struct fuel} : scan json :=
  match fuel with
  | O => GiveUp
  | S fuel =>
      match scan_once fuel s pos with
      | Ok v rest p =>
          let '(s1, p1) := skip_ws rest p in
          match s1 with
          | String c s1' =>
              if (code c =? 93)%nat then Ok (JArr (rev (v :: acc))) s1' (S p1)
              else if (code c =? 44)%nat then
                let '(s2, p2) := skip_ws s1' (S p1) in
                scan_items fuel s2 p2 (v :: acc)
              else Fail "Expecting ',' delimiter" p1
          | EmptyString => Fail "Expecting ',' delimiter" p1
          end
      | Fail msg p => Fail msg p
      | GiveUp => GiveUp
      end
  end
with scan_members (fuel : nat) (s : string) (pos : nat) (acc : gmap string json)
       {struct fuel} : scan json :=
  match fuel with
  | O => GiveUp
  | S fuel =>
      match s with
      | String c s' =>
          if (code c =? 34)%nat then
            match scan_string s' (S pos) pos [] with
            | Ok key rest p =>
                let '(s1, p1) := skip_ws rest p in
                match s1 with
                | String c1 s1' =>
                    if (code c1 =? 58)%nat then
                      let '(s2, p2) := skip_ws s1' (S p1) in
                      match scan_once fuel s2 p2 with
                      | Ok v rest3 p3 =>
                          let '(s3, p3') := skip_ws rest3 p3 in
                          match s3 with
                          | String c3 s3' =>
                              if (code c3 =? 125)%nat then
                                Ok (JObj (<[key := v]> acc)) s3' (S p3')
                              else if (code c3 =? 44)%nat then
                                let '(s4, p4) := skip_ws s3' (S p3') in
                                scan_members fuel s4 p4 (<[key := v]> acc)
                              else Fail "Expecting ',' delimiter" p3'
                          | EmptyString => Fail "Expecting ',' delimiter" p3'
                          end
                      | Fail msg p' => Fail msg p'
                      | GiveUp => GiveUp
                      end
                    else Fail "Expecting ':' delimiter" p1
                | EmptyString => Fail "Expecting ':' delimiter" p1
                end
            | Fail msg p => Fail msg p
            | GiveUp => GiveUp
            end
          else Fail "Expecting property name enclosed in double quotes" pos
      | EmptyString => Fail "Expecting property name enclosed in double quotes" pos
      end
  end.

(** Line and column of offset [pos] in [doc], both counted from 1. *)
Fixpoint line_col (doc : string) (pos : nat) (line col : nat) : nat * nat :=
  match pos, doc with
  | S pos', String c doc' =>
      if (code c =? 10)%nat then line_col doc' pos' (S line) 1
      else line_col doc' pos' line (S col)
  | _, _ => (line, col)
  end.

(** [str(JSONDecodeError(msg, doc, pos))] *)
Definition decode_error (msg doc : string) (pos : nat) : exn :=
  let '(line, col) := line_col doc pos 1 1 in
  Exn "JSONDecodeError"
    (msg +:+ ": line " +:+ pretty line +:+ " column " +:+ pretty col
         +:+ " (char " +:+ pretty pos +:+ ")").

(** [json.loads(doc)] *)
Definition json_loads (doc : string) : outcome json :=
  let '(s0, p0) := skip_ws doc 0 in
  match scan_once (2 * String.length doc + 2) s0 p0 with
  | Ok v rest p =>
      let '(s1, p1) := skip_ws rest p in
      match s1 with
      | EmptyString => Ret v
      | String _ _ => Raise (decode_error "Extra data" doc p1)
      end
  | Fail msg p => Raise (decode_error msg doc p)
  | GiveUp => OutOfFuel
  end.

(** *** Listings and a store *)

(** Attribute values: texts and whole numbers. *)
Inductive value : Type := Text (s : string) | Number (n : Z).

(** [str(v)] *)
Definition py_str (v : value) : string :=
  match v with
  | Text s => s
  | Number n => pretty n
  end.

(** Does attribute value [v] satisfy condition [cond]: a literal, or a
    [$lte] bound on a number (a small part of MongoDB's query language). *)
Definition satisfies (cond : json) (v : option value) : bool :=
  match cond, v with
  | JStr s, Some (Text t) => String.eqb s t
  | JInt n, Some (Number m) => (n =? m)%Z
  | JObj c, Some (Number m) =>
      match c !! "$lte" with
      | Some (JInt n) => (m <=? n)%Z
      | _ => false
      end
  | _, _ => false
  end.

(** [collection.find(filter)] on a collection kept as a list. *)
Definition coll_find (db : list (gmap string value)) (filter_dict : json)
  : outcome (list (gmap string value)) :=
  match filter_dict with
  | JObj m =>
      Ret (List.filter
             (fun doc => forallb (fun kv => satisfies kv.2 (doc !! kv.1)) (map_to_list m))
             db)
  | JNull => Ret db
  | _ => Raise (Exn "TypeError" "filter must be an instance of dict")
  end.

(** *** A model *)

(** A model that answers every request with the same text. *)
Definition always (text : string) (messages : list message) : outcome ModelResponse :=
  Ret (text_reply text).

(** A provider that cannot be reached. *)
Definition unreachable (messages : list message) : outcome ModelResponse :=
  Raise (Exn "APIConnectionError" "Connection error.").

(** Replies of a model: a follow-up question, a filter, a filter outside
    the schema, a reply with both a question and a filter, a JSON list. *)
Definition asks_area : string :=
  "{" +:+ q "status" +:+ ": " +:+ q "incomplete" +:+ ", "
      +:+ q "question" +:+ ": " +:+ q "Which area?" +:+ "}".

Definition cheap_3bhk : string :=
  "{" +:+ q "status" +:+ ": " +:+ q "complete" +:+ ", " +:+ q "filters" +:+ ": {"
      +:+ q "flatType" +:+ ": " +:+ q "3BHK" +:+ ", "
      +:+ q "price" +:+ ": {" +:+ q "$lte" +:+ ": 20000}}}".

Definition off_schema : string :=
  "{" +:+ q "status" +:+ ": " +:+ q "complete" +:+ ", " +:+ q "filters" +:+ ": {"
      +:+ q "bedrooms" +:+ ": " +:+ q "3" +:+ ", "
      +:+ q "price" +:+ ": " +:+ q "20000" +:+ "}}".

Definition both_variants : string :=
  "{" +:+ q "status" +:+ ": " +:+ q "incomplete" +:+ ", "
      +:+ q "question" +:+ ": " +:+ q "Which area?" +:+ ", "
      +:+ q "filters" +:+ ": {}}".

Definition a_list : string := "[1, 2]".

(** A filter that no listing below satisfies. *)
Definition one_bhk : string :=
  "{" +:+ q "status" +:+ ": " +:+ q "complete" +:+ ", " +:+ q "filters" +:+ ": {"
      +:+ q "flatType" +:+ ": " +:+ q "1BHK" +:+ "}}".

(** A reply that is not JSON. *)
Definition chatter : string := "Sure, here are some flats".

(** A model that asks for the area first and answers with a filter once
    the conversation holds more than the instruction and one utterance. *)
Definition two_step (messages : list message) : outcome ModelResponse :=
  if (length messages <=? 2)%nat then Ret (text_reply asks_area)
  else Ret (text_reply cheap_3bhk).

(** More replies: an incomplete one without its question, a status
    the loop does not know, and a filter that is a text. *)
Definition no_question : string :=
  "{" +:+ q "status" +:+ ": " +:+ q "incomplete" +:+ "}".

Definition odd_status : string :=
  "{" +:+ q "status" +:+ ": " +:+ q "maybe" +:+ "}".

Definition text_filter : string :=
  "{" +:+ q "status" +:+ ": " +:+ q "complete" +:+ ", "
      +:+ q "filters" +:+ ": " +:+ q "3BHK" +:+ "}".

(** A model whose response has no choice, and one whose only choice has
    no content. *)
Definition no_choices (messages : list message) : outcome ModelResponse :=
  Ret {| choices := [] |}.

Definition no_content (messages : list message) : outcome ModelResponse :=
  Ret {| choices := [ {| choice_message := {| msg_content := None |} |} ] |}.

(** A decoder that rejects every text. *)
Definition reject_all (doc : string) : outcome json :=
  Raise (decode_error "Expecting value" doc 0).

(** Two listings. *)
Definition flat_a : gmap string value :=
  <["Property Name" := Text "Lake View"]>
    (<["flatType" := Text "3BHK"]>
       (<["locality" := Text "Gachibowli"]> (<["price" := Number 18000]> ∅))).

Definition flat_b : gmap string value :=
  <["Property Name" := Text "Hill Top"]>
    (<["flatType" := Text "2BHK"]>
       (<["Rent/Buy" := Text "Rent"]> (<["price" := Number 25000]> ∅))).



(** A console session and a browser session over these listings. *)
Definition console (lines : list string) : world value (list (gmap string value)) :=
  {| w_stdin := lines; w_db := [flat_a; flat_b]; w_session := new_session |}.

Definition browser (ss : session_state value) : world value (list (gmap string value)) :=
  {| w_stdin := []; w_db := [flat_a; flat_b]; w_session := ss |}.

End Sample.

(** ** Properties *)

Arguments str_in : simpl never.
Arguments strip : simpl never.
Arguments lower : simpl never.
Arguments request_messages : simpl never.
Arguments format_results : simpl never.

Section AgentFacts.

Context {value store : Type}.
Variable py_str : value -> string.
Variable coll_find : store -> json -> outcome (list (gmap string value)).
Variable litellm_completion : list message -> outcome ModelResponse.
Variable json_loads : string -> outcome json.

Local Abbreviation W := (world value store).
Local Abbreviation analyze := (analyze_query litellm_completion json_loads).
Local Abbreviation turn := (flow_body py_str coll_find litellm_completion json_loads).
Local Abbreviation loop := (flow_loop py_str coll_find litellm_completion json_loads).
Local Abbreviation form := (app py_str coll_find litellm_completion json_loads).

(** *** The interpreter *)

(** [analyze_query] case by case: one model call is logged, the world is
    left as it was, and the outcome is decided by the answer of the
    model and by [json.loads]. *)
Lemma analyze_query_unfold query history (w : W) :
  analyze query history w =
    let log := [EvCompletion (request_messages query history)] in
    match litellm_completion (request_messages query history) with
    | Ret response =>
        match first_choice response with
        | Ret c =>
            match loads json_loads (msg_content (choice_message c)) with
            | Ret v => (Ret v, w, log)
            | Raise e =>
                (Ret (error_record e (content_value (msg_content (choice_message c)))),
                 w, log)
            | OutOfFuel => (OutOfFuel, w, log)
            end
        | Raise e => (Raise e, w, log)
        | OutOfFuel => (OutOfFuel, w, log)
        end
    | Raise e => (Raise e, w, log)
    | OutOfFuel => (OutOfFuel, w, log)
    end.
Proof.
  unfold analyze_query, completion, try_except, bind, lift, emit, ret.
  cbn zeta.
  destruct (litellm_completion _) as [response|e|]; try reflexivity.
  destruct (first_choice response) as [c|e|]; try reflexivity.
  destruct (loads _ _) as [v|e|]; reflexivity.
Qed.

(** With a reply whose first choice holds a text, the outcome is decided
    by [json.loads] on that text. *)
Lemma analyze_query_text query history (w : W) text :
  model_says litellm_completion query history text ->
  analyze query history w =
    (match json_loads text with
     | Ret v => Ret v
     | Raise e => Ret (error_record e (JStr text))
     | OutOfFuel => OutOfFuel
     end, w, [EvCompletion (request_messages query history)]).
Proof.
  intros (response & c & rest & Hreply & Hchoices & Htext).
  rewrite analyze_query_unfold. cbn zeta.
  rewrite Hreply. unfold first_choice. rewrite Hchoices, Htext. cbn.
  destruct (json_loads text); reflexivity.
Qed.

(** Two replies without a text.  With no choice at all, the handler fails
    where the body failed, and the IndexError leaves [analyze_query]; with
    a choice whose content is [None], the result is a Failed record whose
    raw response is [None]. *)
Lemma analyze_query_no_choice query history (w : W) response :
  litellm_completion (request_messages query history) = Ret response ->
  choices response = [] ->
  analyze query history w
    = (Raise (Exn "IndexError" "list index out of range"), w,
       [EvCompletion (request_messages query history)]).
Proof.
  intros Hreply Hnone. rewrite analyze_query_unfold. cbn zeta.
  rewrite Hreply. unfold first_choice. rewrite Hnone. reflexivity.
Qed.

Lemma analyze_query_no_content query history (w : W) response c rest :
  litellm_completion (request_messages query history) = Ret response ->
  choices response = c :: rest ->
  msg_content (choice_message c) = None ->
  exists e,
    analyze query history w
      = (Ret (error_record e JNull), w,
         [EvCompletion (request_messages query history)])
    /\ exn_class e = "TypeError".
Proof.
  intros Hreply Hchoices Hnone. rewrite analyze_query_unfold. cbn zeta.
  rewrite Hreply. unfold first_choice. rewrite Hchoices, Hnone. cbn.
  eexists. split; reflexivity.
Qed.

(** The keys of the record built by the handler. *)
Lemma error_record_keys e raw :
  exists m, error_record e raw = JObj m
            /\ m !! "status" = Some (JStr "error")
            /\ m !! "error" = Some (JStr (exn_str e))
            /\ m !! "raw_response" = Some raw
            /\ m !! "question" = None
            /\ m !! "filters" = None.
Proof.
  eexists. split; [reflexivity|].
  repeat split; reflexivity.
Qed.

(** C2 (amended): for every model reply whose text is not valid JSON
    ([json.loads] raises), [analyze_query] returns, without raising, a
    record with status "error" that carries the text of the parse error
    and the raw reply text unchanged. *)
Theorem analyze_query_failed_on_invalid_json query history (w : W) text e :
  model_says litellm_completion query history text ->
  json_loads text = Raise e ->
  exists m,
    analyze query history w
      = (Ret (JObj m), w, [EvCompletion (request_messages query history)])
    /\ m !! "status" = Some (JStr "error")
    /\ m !! "error" = Some (JStr (exn_str e))
    /\ m !! "raw_response" = Some (JStr text).
Proof.
  intros Hsays Hloads.
  destruct (error_record_keys e (JStr text)) as (m & Hm & Hs & He & Hr & _).
  exists m. rewrite (analyze_query_text _ _ _ _ Hsays).
  rewrite Hloads, Hm. auto.
Qed.

(** C4 (amended): the Failed record that [analyze_query] builds when the
    reply is not valid JSON carries neither a question nor a filter;
    every other result is the decoded reply itself, with whatever keys
    the model wrote. *)
Theorem analyze_query_result_variants query history (w : W) text :
  model_says litellm_completion query history text ->
  (forall e, json_loads text = Raise e ->
     exists m, outcome_of (analyze query history w) = Ret (JObj m)
               /\ status_is "error" (JObj m) = true
               /\ carries_question (JObj m) = false
               /\ carries_filter (JObj m) = false)
  /\ (forall v, json_loads text = Ret v ->
        outcome_of (analyze query history w) = Ret v).
Proof.
  intros Hsays.
  rewrite (analyze_query_text _ _ _ _ Hsays).
  split.
  - intros e ->. eexists. split; [reflexivity|].
    repeat split; reflexivity.
  - intros v ->. reflexivity.
Qed.

(** C10: an exception raised by the model call itself is not turned into
    a Failed result: it leaves [analyze_query] as it is, after the call
    was made. *)
Theorem completion_failure_propagates query history (w : W) e :
  litellm_completion (request_messages query history) = Raise e ->
  analyze query history w
    = (Raise e, w, [EvCompletion (request_messages query history)]).
Proof.
  intros Hraise. rewrite analyze_query_unfold. cbn zeta.
  rewrite Hraise. reflexivity.
Qed.

(** *** The store *)


(** *** The console loop *)

(** The interpretation does not depend on the world it is asked in. *)
Lemma analyze_query_run query history (w w0 : W) :
  analyze query history w
    = (outcome_of (analyze query history w0), w,
       [EvCompletion (request_messages query history)]).
Proof.
  rewrite !analyze_query_unfold. cbn zeta.
  repeat case_match; reflexivity.
Qed.

Ltac run_turn :=
  unfold flow_body, search_properties, find, print, input, bind, lift, emit, ret;
  cbn zeta.

(** The exit sentinel: the body of the loop says goodbye and breaks. *)
Lemma turn_exit history fl (w : W) line rest :
  w_stdin w = line :: rest ->
  str_in (lower (strip line)) ["exit"; "quit"] = true ->
  turn history fl w
    = (Ret (Break, history, fl), after_line w rest,
       [EvInput (nl +:+ "Your search query: "); EvPrint (JStr "Goodbye!")]).
Proof.
  intros Hin Hexit. run_turn. rewrite Hin, Hexit. reflexivity.
Qed.

(** C9: when the line typed is the exit sentinel, the body of the loop
    breaks and the loop ends at once; the only events are the prompt and
    the farewell (no model call, no store query), and the conversation
    history is the one the turn started with. *)
Theorem exit_sentinel_ends_session history fl (w : W) line rest fuel :
  w_stdin w = line :: rest ->
  lower (strip line) = "exit" \/ lower (strip line) = "quit" ->
  let log := [EvInput (nl +:+ "Your search query: "); EvPrint (JStr "Goodbye!")] in
  turn history fl w = (Ret (Break, history, fl), after_line w rest, log)
  /\ loop (S fuel) history fl w = (Ret tt, after_line w rest, log)
  /\ service_calls log = [].
Proof.
  intros Hin Hword.
  assert (Hexit : str_in (lower (strip line)) ["exit"; "quit"] = true)
    by (destruct Hword as [-> | ->]; reflexivity).
  cbn zeta. split; [| split].
  - exact (turn_exit _ _ _ _ _ Hin Hexit).
  - cbn [flow_loop]. unfold bind at 1.
    rewrite (turn_exit _ _ _ _ _ Hin Hexit). reflexivity.
  - reflexivity.
Qed.

(** An Incomplete interpretation at the console: the question is printed
    and joins the history as an assistant turn, after the user turn. *)
Lemma turn_incomplete history fl (w : W) line rest m question :
  w_stdin w = line :: rest ->
  str_in (lower (strip line)) ["exit"; "quit"] = false ->
  outcome_of (analyze (strip line) history w) = Ret (JObj m) ->
  m !! "status" = Some (JStr "incomplete") ->
  m !! "question" = Some (JStr question) ->
  turn history fl w
    = (Ret (Continue,
            (history ++ [Msg "user" (JStr (strip line))])
              ++ [Msg "assistant" (JStr question)],
            fl),
       after_line w rest,
       [EvInput (nl +:+ "Your search query: ");
        EvCompletion (request_messages (strip line) history);
        EvPrint (JStr (nl +:+ question))]).
Proof.
  intros Hin Hexit Hana Hstatus Hq. run_turn.
  rewrite Hin, Hexit, (analyze_query_run _ _ _ w), Hana.
  cbn. rewrite Hstatus. cbn. rewrite Hq. reflexivity.
Qed.

(** A Complete interpretation at the console: the filter of the reply is
    sent to the store as it is, once, and the listings found are printed
    through [format_results]. *)
Lemma turn_complete history fl (w : W) line rest m f :
  w_stdin w = line :: rest ->
  str_in (lower (strip line)) ["exit"; "quit"] = false ->
  outcome_of (analyze (strip line) history w) = Ret (JObj m) ->
  m !! "status" = Some (JStr "complete") ->
  m !! "filters" = Some f ->
  exists tail,
    events_of (turn history fl w)
      = [EvInput (nl +:+ "Your search query: ");
         EvCompletion (request_messages (strip line) history);
         EvPrint (JStr "Searching properties:");
         EvFind f] ++ tail
    /\ service_calls tail = []
    /\ store_queries tail = []
    /\ (forall found, coll_find (w_db w) f = Ret found ->
          exists tail',
            tail = EvPrint (JStr (nl +:+ format_results py_str found)) :: tail').
Proof.
  intros Hin Hexit Hana Hstatus Hf. run_turn.
  rewrite Hin, Hexit, (analyze_query_run _ _ _ w), Hana.
  cbn. rewrite Hstatus. cbn. rewrite Hf. cbn.
  destruct (coll_find (w_db w) f) as [found|e|]; cbn.
  - destruct rest as [|answer rest']; cbn.
    + eexists. split; [reflexivity|]. repeat split; try reflexivity.
      intros ? [= <-]. eexists. reflexivity.
    + destruct (str_in (lower answer) _); cbn;
        (eexists; split; [reflexivity|]; repeat split; try reflexivity;
         intros ? [= <-]; eexists; reflexivity).
  - exists []. repeat split; try reflexivity. intros ? [=].
  - exists []. repeat split; try reflexivity. intros ? [=].
Qed.

(** *** One turn, one model call, at most one store query *)

(** [shown] is the field text of the specification. *)
Lemma shown_field_text (prop : gmap string value) key :
  shown py_str prop key = field_text py_str prop key.
Proof. unfold shown, field_text. destruct (prop !! key); reflexivity. Qed.

Lemma turn_calls history fl (w : W) :
  one_turn (service_calls (events_of (turn history fl w))).
Proof.
  run_turn.
  destruct (w_stdin w) as [|line rest]; [left; reflexivity|].
  destruct (str_in _ _); [left; reflexivity|].
  rewrite (analyze_query_run _ _ _ w).
  destruct (outcome_of (analyze _ _ w)) as [analysis|e|];
    [|right; left; reflexivity..].
  unfold one_turn.
  repeat (case_match; simplify_eq/=; auto).
Qed.

Lemma turn_query_needs_complete history fl (w : W) f :
  f ∈ store_queries (events_of (turn history fl w)) ->
  exists line rest m,
    w_stdin w = line :: rest
    /\ outcome_of (analyze (strip line) history w) = Ret (JObj m)
    /\ m !! "status" = Some (JStr "complete")
    /\ m !! "filters" = Some f.
Proof.
  run_turn.
  destruct (w_stdin w) as [|line rest] eqn:Hin; [cbn; by intros ?%elem_of_nil|].
  destruct (str_in _ _); [cbn; by intros ?%elem_of_nil|].
  rewrite (analyze_query_run _ _ _ w).
  destruct (outcome_of (analyze _ _ w)) as [analysis|e|] eqn:Hana;
    [|cbn; by intros ?%elem_of_nil..].
  destruct analysis as [| | | | | |m]; try (cbn; by intros ?%elem_of_nil).
  cbn. destruct (m !! "status") as [status|] eqn:Hstatus;
    [|cbn; by intros ?%elem_of_nil].
  destruct status as [| | | |s| |]; try (cbn; by intros ?%elem_of_nil).
  cbn. destruct (String.eqb s "error"); [cbn; by intros ?%elem_of_nil|].
  destruct (String.eqb s "incomplete").
  { repeat (case_match; simplify_eq/=); by intros ?%elem_of_nil. }
  destruct (String.eqb s "complete") eqn:Hs; cbn;
    [|by intros ?%elem_of_nil].
  apply String.eqb_eq in Hs as ->.
  destruct (m !! "filters") as [f0|] eqn:Hf; cbn; [|by intros ?%elem_of_nil].
  repeat (case_match; simplify_eq/=);
    intros Hq; eexists _, _, m;
    (do 3 (split; [first [reflexivity | eassumption]|]));
    apply list_elem_of_singleton in Hq as ->; assumption.
Qed.

(** *** The form *)

Lemma bind_run {A B} (c : M value store A) (k : A -> M value store B) (w : W) :
  bind c k w =
    match c w with
    | (Ret a, w1, evs1) =>
        (outcome_of (k a w1), world_of (k a w1), evs1 ++ events_of (k a w1))
    | (Raise e, w1, evs1) => (Raise e, w1, evs1)
    | (OutOfFuel, w1, evs1) => (OutOfFuel, w1, evs1)
    end.
Proof.
  unfold bind, outcome_of, world_of, events_of.
  destruct (c w) as [[[a|e|] w1] evs1]; try reflexivity.
  destruct (k a w1) as [[r w2] evs2]; reflexivity.
Qed.

Lemma for_each_show_listing listings (w : W) :
  for_each listings (show_listing py_str) w
    = (Ret tt, w, concat (map (listing_widgets py_str) listings)).
Proof.
  induction listings as [|prop listings IH]; [reflexivity|].
  cbn [for_each map concat]. rewrite bind_run.
  unfold show_listing at 1, st, bind, emit.
  cbn. rewrite IH. cbn.
  rewrite !shown_field_text. reflexivity.
Qed.

(** The results panel shows [panel_widgets] of the held result set and
    changes nothing. *)
Lemma results_panel_run (w : W) :
  results_panel py_str w
    = (Ret tt, w, panel_widgets py_str (results (w_session w))).
Proof.
  unfold results_panel. rewrite bind_run. unfold get_session. cbn.
  destruct (results (w_session w)) as [[|prop listings]|]; try reflexivity.
  rewrite bind_run. unfold st at 1, emit. cbn.
  rewrite for_each_show_listing. reflexivity.
Qed.

Lemma listing_widgets_silent listings :
  service_calls (concat (map (listing_widgets py_str) listings)) = []
  /\ store_queries (concat (map (listing_widgets py_str) listings)) = [].
Proof.
  induction listings as [|prop listings [IH1 IH2]]; [split; reflexivity|].
  cbn. auto.
Qed.

Lemma panel_widgets_silent held :
  service_calls (panel_widgets py_str held) = []
  /\ store_queries (panel_widgets py_str held) = [].
Proof.
  destruct held as [[|prop listings]|]; try (split; reflexivity).
  apply (listing_widgets_silent (prop :: listings)).
Qed.

Lemma header_run ui (w : W) :
  exists evs, header ui w = (Ret (ui_query ui), w, evs)
              /\ service_calls evs = [] /\ store_queries evs = [].
Proof. eexists. repeat split; reflexivity. Qed.

Ltac run_form :=
  unfold search_section, clarification_section, search_block, clarify_block,
    search_properties, find, text_input, st_button, st_stop, st,
    get_session, set_session, bind, lift, emit, ret;
  cbn zeta.

Lemma search_section_calls ui user_input (w : W) :
  let evs := events_of (search_section coll_find litellm_completion json_loads
                          ui user_input w) in
  one_turn (service_calls evs)
  /\ (ui_clicked ui <> Some SearchButton ->
      service_calls evs = [] /\ store_queries evs = []).
Proof.
  run_form. unfold one_turn.
  destruct (bool_decide (ui_clicked ui = Some SearchButton)) eqn:Hclick.
  2: { apply bool_decide_eq_false in Hclick. cbn. auto. }
  apply bool_decide_eq_true in Hclick.
  split; [|intros Hno; by destruct Hno].
  destruct (nonempty (strip user_input)); [|cbn; auto].
  cbn [andb].
  rewrite (analyze_query_run _ _ _ w).
  destruct (outcome_of (analyze _ _ w)) as [analysis|e|]; [|cbn; auto..].
  repeat (case_match; simplify_eq/=; auto).
Qed.

Lemma search_section_idle ui user_input (w : W) :
  ui_clicked ui <> Some SearchButton ->
  search_section coll_find litellm_completion json_loads ui user_input w
    = (Ret tt, w, [EvWidget "button" (JStr "Search")]).
Proof.
  intros Hno. run_form.
  rewrite (bool_decide_eq_false_2 _ Hno). reflexivity.
Qed.

Lemma search_section_query ui user_input (w : W) f :
  f ∈ store_queries
        (events_of (search_section coll_find litellm_completion json_loads
                      ui user_input w)) ->
  exists m,
    ui_clicked ui = Some SearchButton
    /\ outcome_of (analyze user_input (conversation_history (w_session w)) w)
       = Ret (JObj m)
    /\ m !! "status" = Some (JStr "complete")
    /\ m !! "filters" = Some f.
Proof.
  run_form.
  destruct (bool_decide (ui_clicked ui = Some SearchButton)) eqn:Hclick;
    [|cbn; by intros ?%elem_of_nil].
  apply bool_decide_eq_true in Hclick.
  destruct (nonempty (strip user_input)); [|cbn; by intros ?%elem_of_nil].
  cbn [andb].
  rewrite (analyze_query_run _ _ _ w).
  destruct (outcome_of (analyze _ _ w)) as [analysis|e|] eqn:Hana;
    [|cbn; by intros ?%elem_of_nil..].
  destruct analysis as [| | | | | |m]; try (cbn; by intros ?%elem_of_nil).
  cbn. destruct (m !! "status") as [status|] eqn:Hstatus;
    [|cbn; by intros ?%elem_of_nil].
  destruct status as [| | | |s| |]; try (cbn; by intros ?%elem_of_nil).
  cbn. destruct (String.eqb s "error"); [cbn; by intros ?%elem_of_nil|].
  cbn. destruct (String.eqb s "incomplete").
  { repeat (case_match; simplify_eq/=); by intros ?%elem_of_nil. }
  destruct (String.eqb s "complete") eqn:Hs; cbn;
    [|by intros ?%elem_of_nil].
  apply String.eqb_eq in Hs as ->.
  destruct (m !! "filters") as [f0|] eqn:Hf; cbn; [|by intros ?%elem_of_nil].
  repeat (case_match; simplify_eq/=);
    intros Hq; exists m;
    (do 3 (split; [first [reflexivity | eassumption]|]));
    apply list_elem_of_singleton in Hq as ->; assumption.
Qed.

Lemma clarification_section_calls ui (w : W) :
  let evs := events_of (clarification_section coll_find litellm_completion json_loads
                          ui w) in
  one_turn (service_calls evs)
  /\ (ui_clicked ui <> Some ClarifyButton ->
      service_calls evs = [] /\ store_queries evs = []).
Proof.
  run_form. unfold one_turn.
  destruct (truthy (last_question (w_session w))); [|cbn; auto].
  destruct (bool_decide (ui_clicked ui = Some ClarifyButton)) eqn:Hclick.
  2: { apply bool_decide_eq_false in Hclick. cbn. auto. }
  apply bool_decide_eq_true in Hclick.
  split; [|intros Hno; by destruct Hno].
  destruct (nonempty (strip (ui_clarify ui))); [|cbn; auto].
  cbn [andb].
  rewrite (analyze_query_run _ _ _ w).
  destruct (outcome_of (analyze _ _ w)) as [analysis|e|]; [|cbn; auto..].
  repeat (case_match; simplify_eq/=; auto).
Qed.

Lemma clarification_section_query ui (w : W) f :
  f ∈ store_queries
        (events_of (clarification_section coll_find litellm_completion json_loads
                      ui w)) ->
  exists m,
    ui_clicked ui = Some ClarifyButton
    /\ outcome_of (analyze (ui_clarify ui) (conversation_history (w_session w)) w)
       = Ret (JObj m)
    /\ m !! "status" = Some (JStr "complete")
    /\ m !! "filters" = Some f.
Proof.
  run_form.
  destruct (truthy (last_question (w_session w))); [|cbn; by intros ?%elem_of_nil].
  destruct (bool_decide (ui_clicked ui = Some ClarifyButton)) eqn:Hclick;
    [|cbn; by intros ?%elem_of_nil].
  apply bool_decide_eq_true in Hclick.
  destruct (nonempty (strip (ui_clarify ui))); [|cbn; by intros ?%elem_of_nil].
  cbn [andb].
  rewrite (analyze_query_run _ _ _ w).
  destruct (outcome_of (analyze _ _ w)) as [analysis|e|] eqn:Hana;
    [|cbn; by intros ?%elem_of_nil..].
  destruct analysis as [| | | | | |m]; try (cbn; by intros ?%elem_of_nil).
  cbn. destruct (m !! "status") as [status|] eqn:Hstatus;
    [|cbn; by intros ?%elem_of_nil].
  destruct status as [| | | |s| |]; try (cbn; by intros ?%elem_of_nil).
  cbn. destruct (String.eqb s "incomplete").
  { repeat (case_match; simplify_eq/=); by intros ?%elem_of_nil. }
  destruct (String.eqb s "complete") eqn:Hs; cbn;
    [|by intros ?%elem_of_nil].
  apply String.eqb_eq in Hs as ->.
  destruct (m !! "filters") as [f0|] eqn:Hf; cbn; [|by intros ?%elem_of_nil].
  repeat (case_match; simplify_eq/=);
    intros Hq; exists m;
    (do 3 (split; [first [reflexivity | eassumption]|]));
    apply list_elem_of_singleton in Hq as ->; assumption.
Qed.

(** The events of a run of the script: the header, the search section,
    and, unless the search section stopped the run, the clarification
    section and the results panel. *)
Lemma script_events ui (w : W) :
  let searched :=
    search_section coll_find litellm_completion json_loads ui (ui_query ui) w in
  exists head rest,
    events_of (script py_str coll_find litellm_completion json_loads ui w)
      = head ++ events_of searched ++ rest
    /\ service_calls head = [] /\ store_queries head = []
    /\ (rest = []
        \/ exists panel,
             rest = events_of (clarification_section coll_find litellm_completion
                                 json_loads ui (world_of searched)) ++ panel
             /\ service_calls panel = [] /\ store_queries panel = []).
Proof.
  cbn zeta. unfold script.
  destruct (header_run ui w) as (head & Hhead & Hh1 & Hh2).
  exists head. rewrite bind_run, Hhead. cbn [events_of snd].
  rewrite bind_run.
  destruct (search_section _ _ _ _ _ w) as [[[[]|e|] w1] evs1] eqn:Hs;
    cbn [events_of outcome_of world_of fst snd].
  2,3: exists []; rewrite app_nil_r; auto.
  rewrite bind_run.
  destruct (clarification_section _ _ _ _ w1) as [[[[]|e|] w2] evs2] eqn:Hc;
    cbn [events_of outcome_of world_of fst snd].
  - rewrite results_panel_run. cbn [events_of snd].
    eexists. split; [reflexivity|]. split; [done|]. split; [done|].
    right. eexists. split; [reflexivity|]. apply panel_widgets_silent.
  - eexists. split; [reflexivity|]. split; [done|]. split; [done|].
    right. exists []. rewrite app_nil_r. auto.
  - eexists. split; [reflexivity|]. split; [done|]. split; [done|].
    right. exists []. rewrite app_nil_r. auto.
Qed.

(** The script runner adds no event. *)
Lemma app_events ui (w : W) :
  events_of (form ui w)
    = events_of (script py_str coll_find litellm_completion json_loads ui w).
Proof.
  unfold app.
  destruct (script _ _ _ _ ui w) as [[[[]|e|] w1] evs]; try reflexivity.
  destruct (String.eqb _ _); reflexivity.
Qed.

Lemma form_calls ui (w : W) :
  one_turn (service_calls (events_of (form ui w))).
Proof.
  rewrite app_events.
  destruct (script_events ui w) as (head & rest & -> & Hh & _ & Hrest).
  unfold service_calls in *. rewrite !omap_app, Hh, app_nil_l.
  destruct (decide (ui_clicked ui = Some SearchButton)) as [Hclick|Hclick].
  - destruct Hrest as [-> | (panel & -> & Hp & _)].
    + rewrite app_nil_r. apply search_section_calls.
    + rewrite omap_app, Hp, app_nil_r.
      destruct (clarification_section_calls ui
                  (world_of (search_section coll_find litellm_completion json_loads
                               ui (ui_query ui) w))) as [_ Hidle].
      destruct Hidle as [Hc _]; [congruence|].
      unfold service_calls in Hc. rewrite Hc, app_nil_r.
      apply search_section_calls.
  - destruct (search_section_calls ui (ui_query ui) w) as [_ Hidle].
    destruct (Hidle Hclick) as [Hs _]. unfold service_calls in Hs.
    rewrite Hs, app_nil_l.
    destruct Hrest as [-> | (panel & -> & Hp & _)]; [by left|].
    rewrite omap_app, Hp, app_nil_r. apply clarification_section_calls.
Qed.

Lemma form_query_needs_complete ui (w : W) f :
  f ∈ store_queries (events_of (form ui w)) ->
  exists query m,
    (ui_clicked ui = Some SearchButton /\ query = ui_query ui
     \/ ui_clicked ui = Some ClarifyButton /\ query = ui_clarify ui)
    /\ outcome_of (analyze query (conversation_history (w_session w)) w)
       = Ret (JObj m)
    /\ m !! "status" = Some (JStr "complete")
    /\ m !! "filters" = Some f.
Proof.
  rewrite app_events.
  destruct (script_events ui w) as (head & rest & -> & _ & Hh & Hrest).
  unfold store_queries in *. rewrite !omap_app, Hh, app_nil_l.
  rewrite elem_of_app. intros [Hq | Hq].
  - destruct (search_section_query _ _ _ _ Hq) as (m & Hclick & Hm).
    exists (ui_query ui), m. auto.
  - destruct Hrest as [-> | (panel & -> & _ & Hp)];
      [by apply elem_of_nil in Hq|].
    rewrite omap_app, Hp, app_nil_r in Hq.
    destruct (clarification_section_query _ _ _ Hq) as (m & Hclick & Hm).
    rewrite search_section_idle in Hm by congruence.
    unfold world_of in Hm. cbn [fst snd] in Hm.
    exists (ui_clarify ui), m. auto.
Qed.

(** C7: in one pass of the console loop and in one run of the form, the
    calls to the remote services are none, one model call, or one model
    call followed by one store query; and a filter is sent to the store
    only when the interpretation of that turn is a dictionary with
    status "complete" that holds this filter under "filters". *)
Theorem turn_makes_one_call_then_one_query history fl ui (w : W) :
  one_turn (service_calls (events_of (turn history fl w)))
  /\ one_turn (service_calls (events_of (form ui w)))
  /\ (forall f,
        f ∈ store_queries (events_of (turn history fl w)) ->
        exists line rest m,
          w_stdin w = line :: rest
          /\ outcome_of (analyze (strip line) history w) = Ret (JObj m)
          /\ m !! "status" = Some (JStr "complete")
          /\ m !! "filters" = Some f)
  /\ (forall f,
        f ∈ store_queries (events_of (form ui w)) ->
        exists query m,
          (ui_clicked ui = Some SearchButton /\ query = ui_query ui
           \/ ui_clicked ui = Some ClarifyButton /\ query = ui_clarify ui)
          /\ outcome_of (analyze query (conversation_history (w_session w)) w)
             = Ret (JObj m)
          /\ m !! "status" = Some (JStr "complete")
          /\ m !! "filters" = Some f).
Proof.
  split; [apply turn_calls|].
  split; [apply form_calls|].
  split; [apply turn_query_needs_complete|apply form_query_needs_complete].
Qed.
(** *** Filters go to the store as the model wrote them *)

Lemma search_section_complete ui (w : W) m f :
  ui_clicked ui = Some SearchButton ->
  nonempty (strip (ui_query ui)) = true ->
  outcome_of (analyze (ui_query ui) (conversation_history (w_session w)) w)
    = Ret (JObj m) ->
  m !! "status" = Some (JStr "complete") ->
  m !! "filters" = Some f ->
  store_queries
    (events_of (search_section coll_find litellm_completion json_loads
                  ui (ui_query ui) w)) = [f].
Proof.
  intros Hclick Hquery Hana Hstatus Hf. run_form.
  rewrite (bool_decide_eq_true_2 _ Hclick), Hquery. cbn [andb].
  rewrite (analyze_query_run _ _ _ w), Hana.
  cbn. rewrite Hstatus. cbn. rewrite Hf. cbn.
  destruct (coll_find (w_db w) f); reflexivity.
Qed.

Lemma form_complete ui (w : W) m f :
  ui_clicked ui = Some SearchButton ->
  nonempty (strip (ui_query ui)) = true ->
  outcome_of (analyze (ui_query ui) (conversation_history (w_session w)) w)
    = Ret (JObj m) ->
  m !! "status" = Some (JStr "complete") ->
  m !! "filters" = Some f ->
  store_queries (events_of (form ui w)) = [f].
Proof.
  intros Hclick Hquery Hana Hstatus Hf.
  rewrite app_events.
  destruct (script_events ui w) as (head & rest & -> & _ & Hh & Hrest).
  unfold store_queries in *. rewrite !omap_app, Hh, app_nil_l.
  pose proof (search_section_complete ui w m f Hclick Hquery Hana Hstatus Hf) as Hs.
  unfold store_queries in Hs. rewrite Hs.
  destruct Hrest as [-> | (panel & -> & _ & Hp)]; [reflexivity|].
  rewrite omap_app, Hp, app_nil_r.
  destruct (clarification_section_calls ui
              (world_of (search_section coll_find litellm_completion json_loads
                           ui (ui_query ui) w))) as [_ Hidle].
  destruct Hidle as [_ Hc]; [congruence|].
  unfold store_queries in Hc. rewrite Hc. reflexivity.
Qed.

(** C3 (amended): when the reply of the model decodes to a dictionary
    with status "complete" and a "filters" key, the interpretation is
    that dictionary, and the filter sent to the store, at the console
    and in the form, is exactly the value under "filters": no field is
    removed or checked against flatType, locality and price, and no
    value is converted. *)
Theorem filter_reaches_store_unchanged query history (w : W) text m f :
  model_says litellm_completion query history text ->
  json_loads text = Ret (JObj m) ->
  m !! "status" = Some (JStr "complete") ->
  m !! "filters" = Some f ->
  outcome_of (analyze query history w) = Ret (JObj m)
  /\ (forall fl line rest,
        w_stdin w = line :: rest ->
        strip line = query ->
        str_in (lower query) ["exit"; "quit"] = false ->
        store_queries (events_of (turn history fl w)) = [f])
  /\ (forall ui,
        ui_clicked ui = Some SearchButton ->
        ui_query ui = query ->
        nonempty (strip query) = true ->
        conversation_history (w_session w) = history ->
        store_queries (events_of (form ui w)) = [f]).
Proof.
  intros Hsays Hloads Hstatus Hf.
  assert (Hana : outcome_of (analyze query history w) = Ret (JObj m)).
  { rewrite (analyze_query_text _ _ _ _ Hsays), Hloads. reflexivity. }
  split; [exact Hana|]. split.
  - intros fl line rest Hin <- Hexit.
    destruct (turn_complete history fl w line rest m f Hin Hexit Hana Hstatus Hf)
      as (tail & -> & _ & Htail & _).
    unfold store_queries in *. rewrite omap_app, Htail. reflexivity.
  - intros ui Hclick <- Hquery <-.
    exact (form_complete ui w m f Hclick Hquery Hana Hstatus Hf).
Qed.

(** *** Rendering *)

Lemma append_assoc (a b c : string) : (a +:+ b) +:+ c = a +:+ (b +:+ c).
Proof.
  induction a as [|x a IH]; [reflexivity|].
  change (String x ((a +:+ b) +:+ c) = String x (a +:+ (b +:+ c))).
  f_equal. exact IH.
Qed.

(** The text of one listing is the six labelled fields of the
    specification. *)
Lemma prop_str_listing_text (prop : gmap string value) :
  prop_str py_str prop = listing_text py_str prop.
Proof.
  unfold prop_str, listing_text, listing_fields, labelled, q.
  rewrite !shown_field_text. cbn [map String.concat].
  rewrite !append_assoc. reflexivity.
Qed.

(** The loop of [format_results] appends the text of each listing. *)
Lemma format_loop (properties : list (gmap string value)) (result : list string) :
  fold_left (fun result prop => result ++ [prop_str py_str prop]) properties result
    = result ++ map (listing_text py_str) properties.
Proof.
  revert result.
  induction properties as [|prop properties IH]; intros result; cbn [fold_left map].
  - by rewrite app_nil_r.
  - rewrite IH, prop_str_listing_text, <- app_assoc. reflexivity.
Qed.

(** C6: for a non-empty list, [format_results] is the texts of the
    listings, one per record and in the order of the list, joined by a
    line feed; each text is the six labelled fields, and a field whose
    attribute is absent shows the placeholder. *)
Theorem format_results_renders_every_listing (properties : list (gmap string value)) :
  properties <> [] ->
  format_results py_str properties
    = join nl (map (listing_text py_str) properties)
  /\ length (map (listing_text py_str) properties) = length properties
  /\ (forall i prop,
        properties !! i = Some prop ->
        map (listing_text py_str) properties !! i = Some (prop_str py_str prop))
  /\ (forall prop key, prop !! key = None -> shown py_str prop key = "N/A")
  /\ (forall prop key v, prop !! key = Some v -> shown py_str prop key = py_str v).
Proof.
  intros Hne. split; [|split; [|split; [|split]]].
  - destruct properties as [|prop properties]; [done|].
    unfold format_results. cbn zeta. rewrite format_loop. reflexivity.
  - apply length_map.
  - intros i prop Hi.
    change (map (listing_text py_str) properties)
      with (listing_text py_str <$> properties).
    rewrite list_lookup_fmap, Hi, prop_str_listing_text. reflexivity.
  - intros prop key Hkey. unfold shown. rewrite Hkey. reflexivity.
  - intros prop key v Hkey. unfold shown. rewrite Hkey. reflexivity.
Qed.

(** C5: for an empty list of listings, [format_results] is the fixed
    sentence; the results panel of the form shows its heading and that
    sentence as a warning; the console prints that sentence after a line
    feed. *)
Theorem empty_result_set_message :
  format_results py_str [] = "No properties found matching your criteria."
  /\ (forall w : W,
        results (w_session w) = Some [] ->
        events_of (results_panel py_str w)
          = [EvWidget "subheader" (JStr "Search Results");
             EvWidget "warning" (JStr "No properties found matching your criteria.")])
  /\ (forall history fl (w : W) line rest m f,
        w_stdin w = line :: rest ->
        str_in (lower (strip line)) ["exit"; "quit"] = false ->
        outcome_of (analyze (strip line) history w) = Ret (JObj m) ->
        m !! "status" = Some (JStr "complete") ->
        m !! "filters" = Some f ->
        coll_find (w_db w) f = Ret [] ->
        EvPrint (JStr (nl +:+ "No properties found matching your criteria."))
          ∈ events_of (turn history fl w)).
Proof.
  split; [reflexivity|]. split.
  - intros w Hheld. rewrite results_panel_run, Hheld. reflexivity.
  - intros history fl w line rest m f Hin Hexit Hana Hstatus Hf Hfound.
    destruct (turn_complete history fl w line rest m f Hin Hexit Hana Hstatus Hf)
      as (tail & -> & _ & _ & Hshown).
    destruct (Hshown [] Hfound) as (tail' & ->).
    rewrite elem_of_app. right. left.
Qed.
(** *** The history kept by the form *)

Lemma only_user_turns_refl history : only_user_turns history history.
Proof. exists []. by rewrite app_nil_r. Qed.

Lemma only_user_turns_trans h1 h2 h3 :
  only_user_turns h1 h2 -> only_user_turns h2 h3 -> only_user_turns h1 h3.
Proof.
  intros (a & -> & Ha) (b & -> & Hb). exists (a ++ b).
  rewrite app_assoc. split; [reflexivity|]. by apply Forall_app.
Qed.

Lemma only_user_turns_one history text :
  only_user_turns history (history ++ [Msg "user" (JStr text)]).
Proof. eexists. split; [reflexivity|]. by repeat constructor. Qed.

Lemma search_section_history ui user_input (w : W) :
  only_user_turns
    (conversation_history (w_session w))
    (conversation_history
       (w_session (world_of (search_section coll_find litellm_completion json_loads
                               ui user_input w)))).
Proof.
  run_form. unfold world_of.
  destruct (bool_decide _); [|apply only_user_turns_refl].
  destruct (nonempty _); [|apply only_user_turns_refl].
  cbn [andb]. rewrite (analyze_query_run _ _ _ w).
  destruct (outcome_of (analyze _ _ w)) as [analysis|e|];
    [|apply only_user_turns_refl..].
  repeat (case_match; simplify_eq/=);
    first [apply only_user_turns_one | apply only_user_turns_refl].
Qed.

Lemma clarification_section_history ui (w : W) :
  only_user_turns
    (conversation_history (w_session w))
    (conversation_history
       (w_session (world_of (clarification_section coll_find litellm_completion
                               json_loads ui w)))).
Proof.
  run_form. unfold world_of.
  destruct (truthy _); [|apply only_user_turns_refl].
  destruct (bool_decide _); [|apply only_user_turns_refl].
  destruct (nonempty _); [|apply only_user_turns_refl].
  cbn [andb]. rewrite (analyze_query_run _ _ _ w).
  destruct (outcome_of (analyze _ _ w)) as [analysis|e|];
    [|apply only_user_turns_refl..].
  repeat (case_match; simplify_eq/=);
    first [apply only_user_turns_one | apply only_user_turns_refl].
Qed.

(** Whatever the model answers, a run of the form never adds an
    assistant turn to the history. *)
Lemma form_history_only_user_turns ui (w : W) :
  only_user_turns
    (conversation_history (w_session w))
    (conversation_history (w_session (world_of (form ui w)))).
Proof.
  assert (Hscript :
    only_user_turns
      (conversation_history (w_session w))
      (conversation_history
         (w_session (world_of (script py_str coll_find litellm_completion
                                 json_loads ui w))))).
  { unfold script.
    destruct (header_run ui w) as (head & Hhead & _).
    rewrite bind_run, Hhead. cbn [world_of fst snd].
    rewrite bind_run.
    pose proof (search_section_history ui (ui_query ui) w) as Hs.
    destruct (search_section _ _ _ _ _ w) as [[[[]|e|] w1] evs1];
      cbn [world_of outcome_of fst snd] in *; try exact Hs.
    rewrite bind_run.
    pose proof (clarification_section_history ui w1) as Hc.
    destruct (clarification_section _ _ _ _ w1) as [[[[]|e|] w2] evs2];
      cbn [world_of outcome_of fst snd] in *;
      try exact (only_user_turns_trans _ _ _ Hs Hc).
    rewrite results_panel_run. cbn [world_of fst snd].
    exact (only_user_turns_trans _ _ _ Hs Hc). }
  unfold app.
  destruct (script _ _ _ _ ui w) as [[[[]|e|] w1] evs]; try exact Hscript.
  destruct (String.eqb _ _); exact Hscript.
Qed.

End AgentFacts.

(** *** Repository access *)

Section RepositoryFacts.

Context {value store dataset : Type}.
Variable coll_find : store -> json -> outcome (list (gmap string value)).
Variable data : store -> dataset.
Variable matching : dataset -> json -> list (gmap string value).


End RepositoryFacts.

(** ** The programs on explicit inputs *)

Section Runs.

Import Sample.

Local Abbreviation listing := (gmap string Sample.value).
Local Abbreviation SW := (world Sample.value (list listing)).

(** The model always answers [text]. *)
Lemma always_says text query history :
  model_says (always text) query history text.
Proof.
  exists (text_reply text), {| choice_message := {| msg_content := Some text |} |}, [].
  repeat split; reflexivity.
Defined.

(** C1: at the console and in the form, the model answers the first
    utterance with a follow-up question.  The console prints the
    question and appends it to the history as an assistant turn.  The
    form stores and shows the question, but the history it keeps holds
    the user turn only: the question is not appended. *)
Theorem form_does_not_record_question :
  let ui := {| ui_query := "I want a flat"; ui_clarify := EmptyString;
               ui_clicked := Some SearchButton |} in
  let at_console :=
    flow_body py_str coll_find (always asks_area) json_loads [] (JObj ∅)
      (console ["I want a flat"]) in
  let in_form :=
    app py_str coll_find (always asks_area) json_loads ui (browser new_session) in
  json_loads asks_area
    = Ret (JObj (<["status" := JStr "incomplete"]>
                 (<["question" := JStr "Which area?"]> ∅)))
  /\ outcome_of at_console
     = Ret (Continue,
            [Msg "user" (JStr "I want a flat"); Msg "assistant" (JStr "Which area?")],
            JObj ∅)
  /\ outcome_of in_form = Ret tt
  /\ last_question (w_session (world_of in_form)) = JStr "Which area?"
  /\ widgets (events_of in_form)
     = [("set_page_config", JStr "Real Estate Property Search");
        ("title", JStr "🏠 Real Estate Property Search AI Agent");
        ("write", JStr "Enter your property search query below:");
        ("text_input", JStr "Your search query");
        ("button", JStr "Search");
        ("info", JStr "Which area?");
        ("text_input", JStr "Clarify your requirements");
        ("button", JStr "Submit Clarification")]
  /\ conversation_history (w_session (world_of in_form))
     = [Msg "user" (JStr "I want a flat")].
Proof. cbn zeta. repeat split; vm_compute; reflexivity. Qed.

(** C2, as stated, fails: the reply [[1, 2]] cannot be parsed as the
    expected structure, and [analyze_query] returns the list, which is
    not a Failed record. *)
Lemma list_reply_is_not_failed :
  parses_as_expected (json_loads a_list) = false
  /\ outcome_of (analyze_query (always a_list) json_loads "any flats?" []
                  (console []))
     = Ret (JArr [JInt 1; JInt 2])
  /\ ~ @failed_on_every_unexpected_reply Sample.value (list listing)
         (always a_list) json_loads.
Proof.
  split; [reflexivity|]. split; [reflexivity|].
  intros Hclaim.
  destruct (Hclaim "any flats?" [] (console []) a_list
              (always_says _ _ _) eq_refl) as (m & Hm & _).
  vm_compute in Hm. discriminate Hm.
Qed.

(** C3, as stated, fails: the model answers with a filter on the field
    bedrooms and a price given as text; this filter is sent to the store
    as it is. *)
Lemma unlisted_field_reaches_store :
  let f := JObj (<["bedrooms" := JStr "3"]> (<["price" := JStr "20000"]> ∅)) in
  json_loads off_schema
    = Ret (JObj (<["status" := JStr "complete"]> (<["filters" := f]> ∅)))
  /\ store_queries
       (events_of (flow_body py_str coll_find (always off_schema) json_loads
                     [] (JObj ∅) (console ["3 bedrooms under 20k"; "no"])))
     = [f]
  /\ in_schema f = false
  /\ ~ @every_filter_in_schema Sample.value (list listing)
         py_str coll_find (always off_schema) json_loads.
Proof.
  cbn zeta. split; [reflexivity|]. split; [vm_compute; reflexivity|].
  split; [vm_compute; reflexivity|].
  intros Hclaim.
  specialize (Hclaim [] (JObj ∅) (console ["3 bedrooms under 20k"; "no"])
                (JObj (<["bedrooms" := JStr "3"]> (<["price" := JStr "20000"]> ∅)))).
  assert (Hin : in_schema
                  (JObj (<["bedrooms" := JStr "3"]> (<["price" := JStr "20000"]> ∅)))
                = true).
  { apply Hclaim. vm_compute. left. }
  vm_compute in Hin. discriminate Hin.
Qed.

(** C4, as stated, fails: the model answers with both a question and a
    filter, and the interpretation carries both. *)
Lemma reply_with_question_and_filter :
  let v := JObj (<["status" := JStr "incomplete"]>
                 (<["question" := JStr "Which area?"]>
                  (<["filters" := JObj ∅]> ∅))) in
  outcome_of (analyze_query (always both_variants) json_loads "a flat" []
                (console []))
    = Ret v
  /\ carries_question v = true
  /\ carries_filter v = true
  /\ ~ @every_result_one_variant Sample.value (list listing)
         (always both_variants) json_loads.
Proof.
  cbn zeta. split; [vm_compute; reflexivity|].
  split; [reflexivity|]. split; [reflexivity|].
  intros Hclaim.
  specialize (Hclaim "a flat" [] (console []) _ eq_refl).
  vm_compute in Hclaim. discriminate Hclaim.
Qed.

(** A whole console session: a first utterance, the follow-up question,
    a second utterance, one listing found, no refinement. *)
Example console_session :
  let run :=
    property_search_flow py_str coll_find two_step json_loads 3
      (console ["I want a flat"; "3BHK in Gachibowli under 20k"; "no"]) in
  outcome_of run = Ret tt
  /\ service_calls (events_of run) = [ModelCall; ModelCall; StoreQuery]
  /\ printed (events_of run)
     = [JStr "Welcome to Property Search! How can I help you?";
        JStr (nl +:+ "Which area?");
        JStr "Searching properties:";
        JStr (nl +:+ "Property Name : " +:+ q "Lake View" +:+ nl
                 +:+ "flatType : " +:+ q "3BHK" +:+ nl
                 +:+ "locality : " +:+ q "Gachibowli" +:+ nl
                 +:+ "Rent/Buy : " +:+ q "N/A" +:+ nl
                 +:+ "Description : " +:+ q "N/A" +:+ nl
                 +:+ "price : 18000" +:+ nl);
        JStr "Thank you for using Property Search!"].
Proof. cbn zeta. repeat split; vm_compute; reflexivity. Qed.

(** *** The theorems at explicit inputs *)

Lemma analyze_query_failed_on_invalid_json_witness :
  let e := Exn "JSONDecodeError" "Expecting value: line 1 column 1 (char 0)" in
  model_says (always chatter) "hello" [] chatter
  /\ json_loads chatter = Raise e
  /\ exists m,
       analyze_query (always chatter) json_loads "hello" [] (console [])
         = (Ret (JObj m), console [], [EvCompletion (request_messages "hello" [])])
       /\ m !! "status" = Some (JStr "error")
       /\ m !! "error" = Some (JStr (exn_str e))
       /\ m !! "raw_response" = Some (JStr chatter).
Proof.
  cbn zeta. split; [apply always_says|]. split; [reflexivity|].
  apply (analyze_query_failed_on_invalid_json (always chatter) json_loads
           "hello" [] (console []) chatter).
  - apply always_says.
  - reflexivity.
Defined.

Lemma analyze_query_result_variants_witness :
  model_says (always chatter) "hello" [] chatter
  /\ json_loads chatter
     = Raise (Exn "JSONDecodeError" "Expecting value: line 1 column 1 (char 0)")
  /\ exists m,
       outcome_of (analyze_query (always chatter) json_loads "hello" [] (console []))
         = Ret (JObj m)
       /\ status_is "error" (JObj m) = true
       /\ carries_question (JObj m) = false
       /\ carries_filter (JObj m) = false.
Proof.
  split; [apply always_says|]. split; [reflexivity|].
  apply (proj1 (analyze_query_result_variants (always chatter) json_loads
                  "hello" [] (console []) chatter (always_says _ _ _))
           (Exn "JSONDecodeError" "Expecting value: line 1 column 1 (char 0)")).
  reflexivity.
Defined.

Lemma completion_failure_propagates_witness :
  unreachable (request_messages "hello" [])
    = Raise (Exn "APIConnectionError" "Connection error.")
  /\ analyze_query unreachable json_loads "hello" [] (console [])
     = (Raise (Exn "APIConnectionError" "Connection error."), console [],
        [EvCompletion (request_messages "hello" [])]).
Proof.
  split; [reflexivity|].
  apply (completion_failure_propagates unreachable json_loads "hello" []
           (console [])).
  reflexivity.
Defined.



Lemma exit_sentinel_ends_session_witness :
  let w := console ["  Quit "; "3BHK"] in
  let log := [EvInput (nl +:+ "Your search query: "); EvPrint (JStr "Goodbye!")] in
  w_stdin w = ["  Quit "; "3BHK"]
  /\ (lower (strip "  Quit ") = "exit" \/ lower (strip "  Quit ") = "quit")
  /\ flow_body py_str coll_find unreachable json_loads [] (JObj ∅) w
     = (Ret (Break, [], JObj ∅), after_line w ["3BHK"], log)
  /\ flow_loop py_str coll_find unreachable json_loads 1 [] (JObj ∅) w
     = (Ret tt, after_line w ["3BHK"], log)
  /\ service_calls log = [].
Proof.
  cbn zeta. split; [reflexivity|]. split; [right; reflexivity|].
  apply (exit_sentinel_ends_session py_str coll_find unreachable json_loads
           [] (JObj ∅) (console ["  Quit "; "3BHK"]) "  Quit " ["3BHK"] 0).
  - reflexivity.
  - right. reflexivity.
Defined.

Lemma filter_reaches_store_unchanged_witness :
  let f := JObj (<["flatType" := JStr "3BHK"]>
                 (<["price" := JObj (<["$lte" := JInt 20000]> ∅)]> ∅)) in
  let m : gmap string json := <["status" := JStr "complete"]> (<["filters" := f]> ∅) in
  let ui := {| ui_query := "3BHK under 20k"; ui_clarify := EmptyString;
               ui_clicked := Some SearchButton |} in
  model_says (always cheap_3bhk) "3BHK under 20k" [] cheap_3bhk
  /\ json_loads cheap_3bhk = Ret (JObj m)
  /\ m !! "status" = Some (JStr "complete")
  /\ m !! "filters" = Some f
  /\ store_queries
       (events_of (flow_body py_str coll_find (always cheap_3bhk) json_loads
                     [] (JObj ∅) (console [" 3BHK under 20k"; "no"])))
     = [f]
  /\ store_queries
       (events_of (app py_str coll_find (always cheap_3bhk) json_loads
                     ui (browser new_session)))
     = [f].
Proof.
  cbn zeta. split; [apply always_says|]. do 3 (split; [reflexivity|]).
  split.
  - apply (proj1 (proj2
             (filter_reaches_store_unchanged py_str coll_find (always cheap_3bhk)
                json_loads "3BHK under 20k" [] (console [" 3BHK under 20k"; "no"])
                cheap_3bhk _ _ (always_says _ _ _) eq_refl eq_refl eq_refl))
             (JObj ∅) " 3BHK under 20k" ["no"]);
      reflexivity.
  - apply (proj2 (proj2
             (filter_reaches_store_unchanged py_str coll_find (always cheap_3bhk)
                json_loads "3BHK under 20k" [] (browser new_session)
                cheap_3bhk _ _ (always_says _ _ _) eq_refl eq_refl eq_refl)));
      reflexivity.
Defined.

Lemma empty_result_set_message_witness :
  let f := JObj (<["flatType" := JStr "1BHK"]> ∅) in
  let m : gmap string json := <["status" := JStr "complete"]> (<["filters" := f]> ∅) in
  let w := console ["1BHK please"; "no"] in
  results (w_session (browser (set_results (Some []) new_session))) = Some []
  /\ outcome_of (analyze_query (always one_bhk) json_loads (strip "1BHK please") [] w)
     = Ret (JObj m)
  /\ coll_find (w_db w) f = Ret []
  /\ events_of (results_panel py_str (browser (set_results (Some []) new_session)))
     = [EvWidget "subheader" (JStr "Search Results");
        EvWidget "warning" (JStr "No properties found matching your criteria.")]
  /\ EvPrint (JStr (nl +:+ "No properties found matching your criteria."))
       ∈ events_of (flow_body py_str coll_find (always one_bhk) json_loads
                      [] (JObj ∅) w).
Proof.
  cbn zeta. do 3 (split; [reflexivity|]). split.
  - apply (proj1 (proj2
             (empty_result_set_message py_str coll_find (always one_bhk) json_loads))).
    reflexivity.
  - apply (proj2 (proj2
             (empty_result_set_message py_str coll_find (always one_bhk) json_loads))
             [] (JObj ∅) (console ["1BHK please"; "no"]) "1BHK please" ["no"]
             (<["status" := JStr "complete"]>
                (<["filters" := JObj (<["flatType" := JStr "1BHK"]> ∅)]> ∅))
             (JObj (<["flatType" := JStr "1BHK"]> ∅)));
      reflexivity.
Defined.

Lemma format_results_renders_every_listing_witness :
  [flat_a; flat_b] <> []
  /\ format_results py_str [flat_a; flat_b]
     = join nl [listing_text py_str flat_a; listing_text py_str flat_b]
  /\ shown py_str flat_b "locality" = "N/A"
  /\ shown py_str flat_b "price" = "25000".
Proof.
  assert (Hne : [flat_a; flat_b] <> []) by discriminate.
  split; [exact Hne|].
  destruct (format_results_renders_every_listing py_str [flat_a; flat_b] Hne)
    as (Htext & _ & _ & Habsent & Hpresent).
  split; [exact Htext|]. split.
  - apply Habsent. reflexivity.
  - apply (Hpresent flat_b "price" (Number 25000)). reflexivity.
Defined.

Lemma turn_makes_one_call_then_one_query_witness :
  let f := JObj (<["flatType" := JStr "3BHK"]>
                 (<["price" := JObj (<["$lte" := JInt 20000]> ∅)]> ∅)) in
  let w := console ["3BHK under 20k"; "no"] in
  let run := flow_body py_str coll_find (always cheap_3bhk) json_loads [] (JObj ∅) w in
  service_calls (events_of run) = [ModelCall; StoreQuery]
  /\ f ∈ store_queries (events_of run)
  /\ exists line rest m,
       w_stdin w = line :: rest
       /\ outcome_of (analyze_query (always cheap_3bhk) json_loads (strip line) [] w)
          = Ret (JObj m)
       /\ m !! "status" = Some (JStr "complete")
       /\ m !! "filters" = Some f.
Proof.
  cbn zeta. split; [vm_compute; reflexivity|].
  assert (Hsent :
    JObj (<["flatType" := JStr "3BHK"]>
          (<["price" := JObj (<["$lte" := JInt 20000]> ∅)]> ∅))
      ∈ store_queries
          (events_of (flow_body py_str coll_find (always cheap_3bhk) json_loads
                        [] (JObj ∅) (console ["3BHK under 20k"; "no"])))).
  { vm_compute. left. }
  split; [exact Hsent|].
  exact (proj1 (proj2 (proj2
           (turn_makes_one_call_then_one_query py_str coll_find (always cheap_3bhk)
              json_loads [] (JObj ∅)
              {| ui_query := EmptyString; ui_clarify := EmptyString;
                 ui_clicked := None |}
              (console ["3BHK under 20k"; "no"])))) _ Hsent).
Defined.

End Runs.

(** ** Further properties of the console loop *)

Section ConsoleFacts.

Context {value store : Type}.
Variable py_str : value -> string.
Variable coll_find : store -> json -> outcome (list (gmap string value)).
Variable litellm_completion : list message -> outcome ModelResponse.
Variable json_loads : string -> outcome json.

Local Abbreviation W := (world value store).
Local Abbreviation analyze := (analyze_query litellm_completion json_loads).
Local Abbreviation turn := (flow_body py_str coll_find litellm_completion json_loads).
Local Abbreviation loop := (flow_loop py_str coll_find litellm_completion json_loads).
Local Abbreviation query_prompt := (nl +:+ "Your search query: ").
Local Abbreviation refine_prompt :=
  (nl +:+ "Would you like to refine your search? (yes/no): ").

Ltac run_turn :=
  unfold flow_body, search_properties, find, print, input, bind, lift, emit, ret;
  cbn zeta.

(** Once the line is read and is not the sentinel, the pass is decided by
    the interpretation. *)
Ltac enter_turn Hin Hexit w :=
  run_turn; rewrite Hin, Hexit, (analyze_query_run _ _ _ _ _ w).

(** X1: on a Failed interpretation (status "error") the console prints
    the raw response, or the sentence "No response received." when the
    record has none, appends the user turn only, and goes on to the next
    prompt. *)
Theorem console_failed_turn history fl (w : W) line rest m :
  w_stdin w = line :: rest ->
  str_in (lower (strip line)) ["exit"; "quit"] = false ->
  outcome_of (analyze (strip line) history w) = Ret (JObj m) ->
  m !! "status" = Some (JStr "error") ->
  turn history fl w
    = (Ret (Continue, history ++ [Msg "user" (JStr (strip line))], fl),
       after_line w rest,
       [EvInput query_prompt;
        EvCompletion (request_messages (strip line) history);
        EvPrint (default (JStr "No response received.") (m !! "raw_response"))]).
Proof.
  intros Hin Hexit Hana Hstatus. enter_turn Hin Hexit w.
  rewrite Hana. cbn. rewrite Hstatus. reflexivity.
Qed.

(** X2: when the text of the reply is not valid JSON, the console prints
    exactly that text, nothing else, and keeps the user turn. *)
Theorem console_prints_unparseable_reply history fl (w : W) line rest text e :
  w_stdin w = line :: rest ->
  str_in (lower (strip line)) ["exit"; "quit"] = false ->
  model_says litellm_completion (strip line) history text ->
  json_loads text = Raise e ->
  printed (events_of (turn history fl w)) = [JStr text]
  /\ outcome_of (turn history fl w)
     = Ret (Continue, history ++ [Msg "user" (JStr (strip line))], fl).
Proof.
  intros Hin Hexit Hsays Hloads. enter_turn Hin Hexit w.
  rewrite (analyze_query_text _ _ _ _ _ _ Hsays), Hloads.
  split; reflexivity.
Qed.

(** X3: on a reply that is a dictionary of no recognised shape (another
    status, or "complete" without filters) the console prints the apology
    and goes on; the user turn is already in the history, the held filter
    is unchanged, and the store is not queried. *)
Theorem console_unrecognised_shape history fl (w : W) line rest m :
  w_stdin w = line :: rest ->
  str_in (lower (strip line)) ["exit"; "quit"] = false ->
  outcome_of (analyze (strip line) history w) = Ret (JObj m) ->
  recognised (JObj m) = false ->
  turn history fl w
    = (Ret (Continue, history ++ [Msg "user" (JStr (strip line))], fl),
       after_line w rest,
       [EvInput query_prompt;
        EvCompletion (request_messages (strip line) history);
        EvPrint (JStr (nl +:+ "Sorry, I could not process your request. Please try again."))]).
Proof.
  intros Hin Hexit Hana Hshape. enter_turn Hin Hexit w.
  rewrite Hana. cbn.
  unfold recognised, status_is, carries_filter, py_contains in Hshape.
  apply orb_false_elim in Hshape as [Hshape Hcomplete].
  apply orb_false_elim in Hshape as [Herror Hincomplete].
  rewrite Herror, Hincomplete, Hcomplete. reflexivity.
Qed.

(** X4: on a reply that is valid JSON but not an object (a list, a
    number, a text, null) the console pass raises AttributeError, since
    such a value has no [get]: the session ends there. *)
Theorem console_non_object_reply_raises history fl (w : W) line rest v :
  w_stdin w = line :: rest ->
  str_in (lower (strip line)) ["exit"; "quit"] = false ->
  outcome_of (analyze (strip line) history w) = Ret v ->
  (forall m, v <> JObj m) ->
  turn history fl w
    = (Raise (Exn "AttributeError"
                ("'" +:+ type_name v +:+ "' object has no attribute 'get'")),
       after_line w rest,
       [EvInput query_prompt;
        EvCompletion (request_messages (strip line) history)]).
Proof.
  intros Hin Hexit Hana Hshape. enter_turn Hin Hexit w.
  rewrite Hana.
  destruct v; try reflexivity. by destruct (Hshape m).
Qed.

(** X5: the Incomplete branch of the console needs a question that is a
    text: without a "question" key the pass raises KeyError, with a
    question of another type it raises TypeError (the question is
    concatenated to a line feed), and nothing is printed in either case. *)
Theorem console_incomplete_needs_text_question history fl (w : W) line rest m :
  w_stdin w = line :: rest ->
  str_in (lower (strip line)) ["exit"; "quit"] = false ->
  outcome_of (analyze (strip line) history w) = Ret (JObj m) ->
  m !! "status" = Some (JStr "incomplete") ->
  turn history fl w
    = match m !! "question" with
      | None =>
          (Raise (Exn "KeyError" "'question'"), after_line w rest,
           [EvInput query_prompt;
            EvCompletion (request_messages (strip line) history)])
      | Some (JStr question) =>
          (Ret (Continue,
                (history ++ [Msg "user" (JStr (strip line))])
                  ++ [Msg "assistant" (JStr question)],
                fl),
           after_line w rest,
           [EvInput query_prompt;
            EvCompletion (request_messages (strip line) history);
            EvPrint (JStr (nl +:+ question))])
      | Some v =>
          (Raise (Exn "TypeError"
                    ("can only concatenate str (not " +:+ q (type_name v)
                       +:+ ") to str")),
           after_line w rest,
           [EvInput query_prompt;
            EvCompletion (request_messages (strip line) history)])
      end.
Proof.
  intros Hin Hexit Hana Hstatus. enter_turn Hin Hexit w.
  rewrite Hana. cbn. rewrite Hstatus. cbn.
  destruct (m !! "question") as [[]|]; reflexivity.
Qed.

(** X6: the history of the console is append-only: a pass that returns
    leaves the history as it was (exit), or adds the user turn, or adds
    the user turn and then one assistant turn. *)
Theorem console_history_append_only history fl (w : W) ctl history' fl' :
  outcome_of (turn history fl w) = Ret (ctl, history', fl') ->
  exists line rest,
    w_stdin w = line :: rest
    /\ ((ctl = Break /\ history' = history /\ fl' = fl)
        \/ history' = history ++ [Msg "user" (JStr (strip line))]
        \/ exists question,
             ctl = Continue /\ fl' = fl
             /\ history' = (history ++ [Msg "user" (JStr (strip line))])
                             ++ [Msg "assistant" question]).
Proof.
  run_turn. unfold outcome_of.
  destruct (w_stdin w) as [|line rest]; [discriminate|].
  intros Hrun. exists line, rest. split; [reflexivity|].
  destruct (str_in _ _); [left; by simplify_eq/=|].
  rewrite (analyze_query_run _ _ _ _ _ w) in Hrun.
  destruct (outcome_of (analyze _ _ w)) as [analysis|e|]; [|discriminate..].
  right.
  repeat (case_match; simplify_eq/=); eauto.
Qed.

(** X7: after the listings are printed, the answer to the refine prompt
    is lower-cased but not stripped: the loop goes on when it is y or
    yes, and the session ends on any other answer; either way the filter
    of the reply becomes the held filter and the history keeps the user
    turn. *)
Theorem console_refine_answer history fl (w : W) line answer rest m f found :
  w_stdin w = line :: answer :: rest ->
  str_in (lower (strip line)) ["exit"; "quit"] = false ->
  outcome_of (analyze (strip line) history w) = Ret (JObj m) ->
  m !! "status" = Some (JStr "complete") ->
  m !! "filters" = Some f ->
  coll_find (w_db w) f = Ret found ->
  let again := str_in (lower answer) ["y"; "yes"] in
  turn history fl w
    = (Ret (if again then Continue else Break,
            history ++ [Msg "user" (JStr (strip line))], f),
       after_line w rest,
       [EvInput query_prompt;
        EvCompletion (request_messages (strip line) history);
        EvPrint (JStr "Searching properties:");
        EvFind f;
        EvPrint (JStr (nl +:+ format_results py_str found));
        EvInput refine_prompt;
        EvPrint (JStr (if again
                       then "Please provide additional filters or modifications"
                       else "Thank you for using Property Search!"))]).
Proof.
  intros Hin Hexit Hana Hstatus Hf Hfound. enter_turn Hin Hexit w.
  rewrite Hana. cbn. rewrite Hstatus. cbn. rewrite Hf. cbn. rewrite Hfound. cbn.
  destruct (str_in (lower answer) _); reflexivity.
Qed.

(** X8: when the input ends, [input] raises EOFError: at the query
    prompt before any call, and at the refine prompt after the listings
    were printed. *)
Theorem console_end_of_input history fl (w : W) :
  (w_stdin w = [] ->
   turn history fl w
     = (Raise (Exn "EOFError" "EOF when reading a line"), w, [EvInput query_prompt]))
  /\ (forall line m f found,
        w_stdin w = [line] ->
        str_in (lower (strip line)) ["exit"; "quit"] = false ->
        outcome_of (analyze (strip line) history w) = Ret (JObj m) ->
        m !! "status" = Some (JStr "complete") ->
        m !! "filters" = Some f ->
        coll_find (w_db w) f = Ret found ->
        turn history fl w
          = (Raise (Exn "EOFError" "EOF when reading a line"), after_line w [],
             [EvInput query_prompt;
              EvCompletion (request_messages (strip line) history);
              EvPrint (JStr "Searching properties:");
              EvFind f;
              EvPrint (JStr (nl +:+ format_results py_str found));
              EvInput refine_prompt])).
Proof.
  split.
  - intros Hin. run_turn. rewrite Hin. reflexivity.
  - intros line m f found Hin Hexit Hana Hstatus Hf Hfound. enter_turn Hin Hexit w.
    rewrite Hana. cbn. rewrite Hstatus. cbn. rewrite Hf. cbn. rewrite Hfound.
    reflexivity.
Qed.

(** X9: an exception of the store query is not caught: the console pass
    raises it right after the query, and no listing is printed. *)
Theorem console_store_failure_propagates history fl (w : W) line rest m f e :
  w_stdin w = line :: rest ->
  str_in (lower (strip line)) ["exit"; "quit"] = false ->
  outcome_of (analyze (strip line) history w) = Ret (JObj m) ->
  m !! "status" = Some (JStr "complete") ->
  m !! "filters" = Some f ->
  coll_find (w_db w) f = Raise e ->
  turn history fl w
    = (Raise e, after_line w rest,
       [EvInput query_prompt;
        EvCompletion (request_messages (strip line) history);
        EvPrint (JStr "Searching properties:");
        EvFind f]).
Proof.
  intros Hin Hexit Hana Hstatus Hf Hfound. enter_turn Hin Hexit w.
  rewrite Hana. cbn. rewrite Hstatus. cbn. rewrite Hf. cbn. rewrite Hfound.
  reflexivity.
Qed.

(** Every line that is not the sentinel is sent to the model, stripped,
    after the history. *)
Lemma turn_request history fl (w : W) line rest :
  w_stdin w = line :: rest ->
  str_in (lower (strip line)) ["exit"; "quit"] = false ->
  exists tail,
    events_of (turn history fl w)
      = EvInput query_prompt
          :: EvCompletion (request_messages (strip line) history) :: tail.
Proof.
  intros Hin Hexit. enter_turn Hin Hexit w.
  destruct (outcome_of (analyze _ _ w)) as [analysis|e|];
    [|eexists; reflexivity..].
  repeat (case_match; simplify_eq/=); eexists; reflexivity.
Qed.

(** X10: the console does not check that the utterance is non-empty: a
    line of spaces only is sent to the model as the empty utterance. *)
Theorem console_blank_line_calls_model history fl (w : W) line rest :
  w_stdin w = line :: rest ->
  strip line = EmptyString ->
  exists tail,
    events_of (turn history fl w)
      = EvInput query_prompt
          :: EvCompletion (request_messages EmptyString history) :: tail.
Proof.
  intros Hin Hblank.
  destruct (turn_request history fl w line rest Hin) as (tail & Htail).
  { rewrite Hblank. reflexivity. }
  exists tail. by rewrite Htail, Hblank.
Qed.

(** X11: the follow-up question becomes context: after an Incomplete
    pass, the request of the next pass is the instruction, the earlier
    history, the first utterance, the question as an assistant turn, and
    the new utterance. *)
Theorem console_question_becomes_context
    history fl (w : W) line1 line2 rest m question fuel :
  w_stdin w = line1 :: line2 :: rest ->
  str_in (lower (strip line1)) ["exit"; "quit"] = false ->
  outcome_of (analyze (strip line1) history w) = Ret (JObj m) ->
  m !! "status" = Some (JStr "incomplete") ->
  m !! "question" = Some (JStr question) ->
  str_in (lower (strip line2)) ["exit"; "quit"] = false ->
  exists tail,
    events_of (loop (S (S fuel)) history fl w)
      = [EvInput query_prompt;
         EvCompletion (request_messages (strip line1) history);
         EvPrint (JStr (nl +:+ question));
         EvInput query_prompt;
         EvCompletion
           (request_messages (strip line2)
              (history ++ [Msg "user" (JStr (strip line1));
                           Msg "assistant" (JStr question)]))] ++ tail.
Proof.
  intros Hin Hexit1 Hana Hstatus Hq Hexit2.
  cbn [flow_loop]. rewrite bind_run.
  rewrite (turn_incomplete py_str coll_find litellm_completion json_loads
             history fl w line1 (line2 :: rest) m question Hin Hexit1 Hana Hstatus Hq).
  cbn [events_of outcome_of world_of fst snd]. rewrite bind_run.
  destruct (turn_request
              ((history ++ [Msg "user" (JStr (strip line1))])
                 ++ [Msg "assistant" (JStr question)])
              fl (after_line w (line2 :: rest)) line2 rest eq_refl Hexit2)
    as (tail & Htail).
  rewrite <- app_assoc in Htail. cbn [app] in Htail.
  rewrite <- app_assoc. cbn [app].
  destruct (turn _ fl (after_line w (line2 :: rest))) as [[[[[ctl h'] fl']|e|] w2] evs2];
    cbn [events_of outcome_of world_of fst snd] in *; subst evs2.
  - destruct ctl.
    + destruct (loop fuel h' fl' w2) as [[r w3] evs3].
      cbn. eexists. reflexivity.
    + cbn. eexists. reflexivity.
  - cbn. eexists. reflexivity.
  - cbn. eexists. reflexivity.
Qed.

(** The interpreter answers when the model and the decoder do. *)
Lemma analyze_answers query history (w : W) :
  (forall messages, litellm_completion messages <> OutOfFuel) ->
  (forall text, json_loads text <> OutOfFuel) ->
  outcome_of (analyze query history w) <> OutOfFuel.
Proof.
  intros Hmodel Hdecoder. rewrite analyze_query_unfold. cbn zeta.
  pose proof (Hmodel (request_messages query history)) as Hm.
  destruct (litellm_completion _) as [response|e|]; [|discriminate|done].
  unfold first_choice. destruct (choices response) as [|c cs]; [discriminate|].
  unfold loads. destruct (msg_content (choice_message c)) as [text|]; [|discriminate].
  pose proof (Hdecoder text) as Hd.
  destruct (json_loads text); [discriminate|discriminate|done].
Qed.

(** A pass of the loop answers when the services do, and a pass that
    continues has read at least one line. *)
Lemma turn_answers history fl (w : W) :
  (forall messages, litellm_completion messages <> OutOfFuel) ->
  (forall text, json_loads text <> OutOfFuel) ->
  (forall db f, coll_find db f <> OutOfFuel) ->
  outcome_of (turn history fl w) <> OutOfFuel.
Proof.
  intros Hmodel Hdecoder Hstore. run_turn. unfold outcome_of.
  destruct (w_stdin w) as [|line rest]; [discriminate|].
  destruct (str_in _ _); [discriminate|].
  rewrite (analyze_query_run _ _ _ _ _ w).
  pose proof (analyze_answers (strip line) history w Hmodel Hdecoder) as Ha.
  destruct (outcome_of (analyze _ _ w)) as [analysis|e|]; [|discriminate|done].
  destruct analysis as [| | | | | |m]; try discriminate. cbn.
  repeat (case_match; simplify_eq/=); try discriminate.
  all: try (exfalso; eapply Hstore; eassumption).
  all: match goal with
       | H : py_str_add _ ?a = OutOfFuel |- _ => destruct a; discriminate H
       end.
Qed.

Lemma turn_consumes history fl (w : W) history' fl' :
  outcome_of (turn history fl w) = Ret (Continue, history', fl') ->
  length (w_stdin (world_of (turn history fl w))) < length (w_stdin w).
Proof.
  run_turn. unfold outcome_of, world_of.
  destruct (w_stdin w) as [|line rest]; [discriminate|].
  destruct (str_in _ _); [discriminate|].
  rewrite (analyze_query_run _ _ _ _ _ w).
  destruct (outcome_of (analyze _ _ w)) as [analysis|e|]; [|discriminate..].
  repeat (case_match; simplify_eq/=); intros; simplify_eq/=; lia.
Qed.

(** X12: the console session ends on a finite input: every pass that
    continues has consumed a line, so with more passes allowed than lines
    typed, and services that answer, the loop returns or raises (at the
    latest with EOFError). *)
Theorem console_session_ends fuel history fl (w : W) :
  (forall messages, litellm_completion messages <> OutOfFuel) ->
  (forall text, json_loads text <> OutOfFuel) ->
  (forall db f, coll_find db f <> OutOfFuel) ->
  length (w_stdin w) < fuel ->
  outcome_of (loop fuel history fl w) <> OutOfFuel.
Proof.
  intros Hmodel Hdecoder Hstore.
  revert history fl w.
  induction fuel as [|fuel IH]; intros history fl w Hfuel; [lia|].
  cbn [flow_loop]. rewrite bind_run.
  pose proof (turn_answers history fl w Hmodel Hdecoder Hstore) as Hanswers.
  pose proof (turn_consumes history fl w) as Hconsumes.
  destruct (turn history fl w) as [[[[[ctl h'] fl']|e|] w1] evs1];
    cbn [outcome_of world_of events_of fst snd] in *; [|discriminate|done].
  destruct ctl; [|discriminate].
  apply IH. specialize (Hconsumes h' fl' eq_refl). lia.
Qed.

(** X13: a response without any choice escapes the handler of
    [analyze_query]: the handler reads the first choice again, so the
    IndexError ends the console pass. *)
Theorem console_empty_response_raises history fl (w : W) line rest response :
  w_stdin w = line :: rest ->
  str_in (lower (strip line)) ["exit"; "quit"] = false ->
  litellm_completion (request_messages (strip line) history) = Ret response ->
  choices response = [] ->
  turn history fl w
    = (Raise (Exn "IndexError" "list index out of range"), after_line w rest,
       [EvInput query_prompt;
        EvCompletion (request_messages (strip line) history)]).
Proof.
  intros Hin Hexit Hreply Hnone. enter_turn Hin Hexit w.
  rewrite (analyze_query_no_choice _ _ _ _ _ _ Hreply Hnone). reflexivity.
Qed.

(** X14: a reply whose content is [None] is a Failed interpretation: the
    console prints [None] and goes on, with the user turn in the
    history. *)
Theorem console_prints_none_content history fl (w : W) line rest response c cs :
  w_stdin w = line :: rest ->
  str_in (lower (strip line)) ["exit"; "quit"] = false ->
  litellm_completion (request_messages (strip line) history) = Ret response ->
  choices response = c :: cs ->
  msg_content (choice_message c) = None ->
  turn history fl w
    = (Ret (Continue, history ++ [Msg "user" (JStr (strip line))], fl),
       after_line w rest,
       [EvInput query_prompt;
        EvCompletion (request_messages (strip line) history);
        EvPrint JNull]).
Proof.
  intros Hin Hexit Hreply Hchoices Hnone. enter_turn Hin Hexit w.
  destruct (analyze_query_no_content litellm_completion json_loads
              (strip line) history w response c cs Hreply Hchoices Hnone)
    as (e & -> & _).
  reflexivity.
Qed.

(** An exception of the model call is the outcome of the interpreter. *)
Lemma analyze_query_model_raises query history (w : W) e :
  litellm_completion (request_messages query history) = Raise e ->
  analyze query history w
    = (Raise e, w, [EvCompletion (request_messages query history)]).
Proof.
  intros Hraise. rewrite analyze_query_unfold. cbn zeta. by rewrite Hraise.
Qed.

(** X26: an exception of the model call ends the console pass: nothing
    is printed and the store is not queried. *)
Theorem console_model_failure_propagates history fl (w : W) line rest e :
  w_stdin w = line :: rest ->
  str_in (lower (strip line)) ["exit"; "quit"] = false ->
  litellm_completion (request_messages (strip line) history) = Raise e ->
  turn history fl w
    = (Raise e, after_line w rest,
       [EvInput query_prompt;
        EvCompletion (request_messages (strip line) history)]).
Proof.
  intros Hin Hexit Hraise. run_turn. rewrite Hin, Hexit.
  rewrite (analyze_query_model_raises _ _ _ e Hraise). reflexivity.
Qed.

End ConsoleFacts.

(** ** Further properties of the form *)

Section FormFacts.

Context {value store : Type}.
Variable py_str : value -> string.
Variable coll_find : store -> json -> outcome (list (gmap string value)).
Variable litellm_completion : list message -> outcome ModelResponse.
Variable json_loads : string -> outcome json.

Local Abbreviation W := (world value store).
Local Abbreviation analyze := (analyze_query litellm_completion json_loads).
Local Abbreviation form := (app py_str coll_find litellm_completion json_loads).
Local Abbreviation search_button := (EvWidget "button" (JStr "Search")).
Local Abbreviation clarify_widgets :=
  [EvWidget "text_input" (JStr "Clarify your requirements");
   EvWidget "button" (JStr "Submit Clarification")].

Arguments results_panel : simpl never.

Ltac run_form :=
  unfold search_section, clarification_section, search_block, clarify_block,
    search_properties, find, text_input, st_button, st_stop, st,
    get_session, set_session, bind, lift, emit, ret;
  cbn zeta.

(** The script up to the results panel, with the panel as
    [panel_widgets]. *)
Ltac run_script :=
  unfold app, script; rewrite bind_run;
  change (header ?ui ?w) with (Ret (ui_query ui), w, header_events);
  cbn [outcome_of world_of events_of fst snd]; rewrite bind_run.

(** The search section on an effective click: the button, the model
    call, and then whatever the interpretation decides. *)
Ltac enter_search Hclick Hquery w :=
  run_form;
  rewrite (bool_decide_eq_true_2 _ Hclick), Hquery; cbn [andb];
  rewrite (analyze_query_run _ _ _ _ _ w).

(** X15: a run of the form without an effective click (no button, or a
    button on a blank text, or no pending question) calls no service,
    changes nothing in the session, and shows the held result set again. *)
Theorem form_rerun_changes_nothing ui (w : W) :
  (ui_clicked ui = Some SearchButton -> nonempty (strip (ui_query ui)) = false) ->
  (ui_clicked ui = Some ClarifyButton ->
   truthy (last_question (w_session w)) && nonempty (strip (ui_clarify ui)) = false) ->
  outcome_of (form ui w) = Ret tt
  /\ world_of (form ui w) = w
  /\ service_calls (events_of (form ui w)) = []
  /\ exists shown_before,
       events_of (form ui w)
         = shown_before ++ panel_widgets py_str (results (w_session w)).
Proof.
  intros Hsearch Hclarify. run_script.
  assert (Hs : search_section coll_find litellm_completion json_loads ui (ui_query ui) w
               = (Ret tt, w, [search_button])).
  { run_form. destruct (bool_decide _) eqn:Hclick; [|reflexivity].
    apply bool_decide_eq_true in Hclick. by rewrite (Hsearch Hclick). }
  rewrite Hs. cbn [outcome_of world_of events_of fst snd]. rewrite bind_run.
  assert (Hc : exists evs,
             clarification_section coll_find litellm_completion json_loads ui w
               = (Ret tt, w, evs) /\ service_calls evs = []).
  { run_form. destruct (truthy _) eqn:Hpending; [|eexists; split; reflexivity].
    destruct (bool_decide _) eqn:Hclick; [|eexists; split; reflexivity].
    apply bool_decide_eq_true in Hclick. specialize (Hclarify Hclick).
    cbn [andb] in Hclarify. rewrite Hclarify. eexists; split; reflexivity. }
  destruct Hc as (evs & -> & Hsilent).
  cbn [outcome_of world_of events_of fst snd].
  rewrite results_panel_run. cbn [outcome_of world_of events_of fst snd].
  split; [reflexivity|]. split; [reflexivity|]. split.
  - destruct (panel_widgets_silent py_str (results (w_session w))) as [Hpanel _].
    unfold service_calls in *. rewrite !omap_app, Hsilent, Hpanel.
    reflexivity.
  - eexists. rewrite !app_assoc. reflexivity.
Qed.

(** X16: on a Failed interpretation the search of the form shows the
    error and the raw response and stops the run: the clarification box
    and the results panel are not rendered, and in the session only the
    history changes (the user turn, with the text as it was typed). *)
Theorem form_failed_stops_run ui (w : W) m :
  ui_clicked ui = Some SearchButton ->
  nonempty (strip (ui_query ui)) = true ->
  outcome_of (analyze (ui_query ui) (conversation_history (w_session w)) w)
    = Ret (JObj m) ->
  m !! "status" = Some (JStr "error") ->
  form ui w
    = (Ret tt,
       with_session w (append_history (Msg "user" (JStr (ui_query ui))) (w_session w)),
       header_events
         ++ [search_button;
             EvCompletion (request_messages (ui_query ui)
                             (conversation_history (w_session w)));
             EvWidget "error" (JStr "Sorry, there was an error understanding your request.");
             EvWidget "write"
               (default (JStr "No response received.") (m !! "raw_response"))]).
Proof.
  intros Hclick Hquery Hana Hstatus. run_script. enter_search Hclick Hquery w.
  rewrite Hana. cbn. rewrite Hstatus. reflexivity.
Qed.

(** X17: the clarification of the form has no branch for a Failed
    interpretation: it shows the generic apology, not the raw response,
    drops the pending question and the held result set, and keeps the
    user turn. *)
Theorem form_clarification_failed_is_generic ui (w : W) m :
  ui_clicked ui = Some ClarifyButton ->
  truthy (last_question (w_session w)) = true ->
  nonempty (strip (ui_clarify ui)) = true ->
  outcome_of (analyze (ui_clarify ui) (conversation_history (w_session w)) w)
    = Ret (JObj m) ->
  m !! "status" = Some (JStr "error") ->
  form ui w
    = (Ret tt,
       with_session w
         (set_results None
            (set_last_question JNull
               (append_history (Msg "user" (JStr (ui_clarify ui))) (w_session w)))),
       header_events
         ++ [search_button; EvWidget "info" (last_question (w_session w))]
         ++ clarify_widgets
         ++ [EvCompletion (request_messages (ui_clarify ui)
                             (conversation_history (w_session w)));
             EvWidget "error"
               (JStr "Sorry, I could not process your request. Please try again.")]).
Proof.
  intros Hclick Hpending Hclarify Hana Hstatus. run_script.
  rewrite search_section_idle by congruence.
  cbn [outcome_of world_of events_of fst snd]. rewrite bind_run.
  run_form. rewrite Hpending, (bool_decide_eq_true_2 _ Hclick), Hclarify. cbn [andb].
  rewrite (analyze_query_run _ _ _ _ _ w), Hana.
  cbn. rewrite Hstatus. reflexivity.
Qed.

(** X18: on a Complete interpretation the search of the form stores the
    filter, queries the store once, stores the listings found, clears the
    pending question, and shows the listings in the same run. *)
Theorem form_complete_shows_results ui (w : W) m f found :
  ui_clicked ui = Some SearchButton ->
  nonempty (strip (ui_query ui)) = true ->
  outcome_of (analyze (ui_query ui) (conversation_history (w_session w)) w)
    = Ret (JObj m) ->
  m !! "status" = Some (JStr "complete") ->
  m !! "filters" = Some f ->
  coll_find (w_db w) f = Ret found ->
  form ui w
    = (Ret tt,
       with_session w
         (set_last_question JNull
            (set_results (Some found)
               (set_filters f
                  (append_history (Msg "user" (JStr (ui_query ui))) (w_session w))))),
       header_events
         ++ [search_button;
             EvCompletion (request_messages (ui_query ui)
                             (conversation_history (w_session w)));
             EvFind f]
         ++ panel_widgets py_str (Some found)).
Proof.
  intros Hclick Hquery Hana Hstatus Hf Hfound. run_script. enter_search Hclick Hquery w.
  rewrite Hana. cbn. rewrite Hstatus. cbn. rewrite Hf. cbn. rewrite Hfound. cbn.
  rewrite results_panel_run. reflexivity.
Qed.

(** X19: an exception of the store query is not caught by the form
    either: the run raises it; the filter is already stored in the
    session, while the held result set and the pending question are
    those of before, and nothing is shown after the query. *)
Theorem form_store_failure_propagates ui (w : W) m f e :
  ui_clicked ui = Some SearchButton ->
  nonempty (strip (ui_query ui)) = true ->
  outcome_of (analyze (ui_query ui) (conversation_history (w_session w)) w)
    = Ret (JObj m) ->
  m !! "status" = Some (JStr "complete") ->
  m !! "filters" = Some f ->
  coll_find (w_db w) f = Raise e ->
  String.eqb (exn_class e) "StopException" = false ->
  form ui w
    = (Raise e,
       with_session w
         (set_filters f
            (append_history (Msg "user" (JStr (ui_query ui))) (w_session w))),
       header_events
         ++ [search_button;
             EvCompletion (request_messages (ui_query ui)
                             (conversation_history (w_session w)));
             EvFind f]).
Proof.
  intros Hclick Hquery Hana Hstatus Hf Hfound Hclass. run_script.
  enter_search Hclick Hquery w.
  rewrite Hana. cbn. rewrite Hstatus. cbn. rewrite Hf. cbn. rewrite Hfound. cbn.
  rewrite Hclass. reflexivity.
Qed.

(** X20: on an Incomplete interpretation the search of the form stores
    the question as the pending one and drops the held result set; the
    question and the clarification box are shown in the same run only
    when the question is truthy (an empty question shows nothing). *)
Theorem form_incomplete_stores_question ui (w : W) m question :
  ui_clicked ui = Some SearchButton ->
  nonempty (strip (ui_query ui)) = true ->
  outcome_of (analyze (ui_query ui) (conversation_history (w_session w)) w)
    = Ret (JObj m) ->
  m !! "status" = Some (JStr "incomplete") ->
  m !! "question" = Some question ->
  form ui w
    = (Ret tt,
       with_session w
         (set_results None
            (set_last_question question
               (append_history (Msg "user" (JStr (ui_query ui))) (w_session w)))),
       header_events
         ++ [search_button;
             EvCompletion (request_messages (ui_query ui)
                             (conversation_history (w_session w)))]
         ++ (if truthy question
             then EvWidget "info" question :: clarify_widgets
             else [])).
Proof.
  intros Hclick Hquery Hana Hstatus Hq. run_script. enter_search Hclick Hquery w.
  rewrite Hana. cbn. rewrite Hstatus. cbn. rewrite Hq. cbn.
  destruct (truthy question); cbn.
  - rewrite (bool_decide_eq_false_2 (ui_clicked ui = Some ClarifyButton))
      by congruence.
    reflexivity.
  - reflexivity.
Qed.

(** X21: on a reply that is valid JSON but not an object the search of
    the form raises AttributeError, after the user turn joined the
    history. *)
Theorem form_non_object_reply_raises ui (w : W) v :
  ui_clicked ui = Some SearchButton ->
  nonempty (strip (ui_query ui)) = true ->
  outcome_of (analyze (ui_query ui) (conversation_history (w_session w)) w) = Ret v ->
  (forall m, v <> JObj m) ->
  form ui w
    = (Raise (Exn "AttributeError"
                ("'" +:+ type_name v +:+ "' object has no attribute 'get'")),
       with_session w (append_history (Msg "user" (JStr (ui_query ui))) (w_session w)),
       header_events
         ++ [search_button;
             EvCompletion (request_messages (ui_query ui)
                             (conversation_history (w_session w)))]).
Proof.
  intros Hclick Hquery Hana Hshape. run_script. enter_search Hclick Hquery w.
  rewrite Hana.
  destruct v; try reflexivity. by destruct (Hshape m).
Qed.

(** X22: an exception of the model call leaves no trace in the session
    of the form: the run raises it after the call, and the history does
    not get the user turn (it is appended after the call returns). *)
Theorem form_model_failure_leaves_session ui (w : W) e :
  ui_clicked ui = Some SearchButton ->
  nonempty (strip (ui_query ui)) = true ->
  litellm_completion
    (request_messages (ui_query ui) (conversation_history (w_session w))) = Raise e ->
  String.eqb (exn_class e) "StopException" = false ->
  form ui w
    = (Raise e, w,
       header_events
         ++ [search_button;
             EvCompletion (request_messages (ui_query ui)
                             (conversation_history (w_session w)))]).
Proof.
  intros Hclick Hquery Hraise Hclass. run_script. run_form.
  rewrite (bool_decide_eq_true_2 _ Hclick), Hquery. cbn [andb].
  rewrite (analyze_query_model_raises litellm_completion json_loads _ _ w e Hraise).
  cbn.
  rewrite Hclass. reflexivity.
Qed.

(** X23: the clarification closes the round: on a Complete
    interpretation of the clarifying text, asked with the history of the
    session, the form queries the store with the filter of the reply,
    clears the pending question (the clarification box is gone at the
    next run) and shows the listings found. *)
Theorem form_clarification_complete_shows_results ui (w : W) m f found :
  ui_clicked ui = Some ClarifyButton ->
  truthy (last_question (w_session w)) = true ->
  nonempty (strip (ui_clarify ui)) = true ->
  outcome_of (analyze (ui_clarify ui) (conversation_history (w_session w)) w)
    = Ret (JObj m) ->
  m !! "status" = Some (JStr "complete") ->
  m !! "filters" = Some f ->
  coll_find (w_db w) f = Ret found ->
  form ui w
    = (Ret tt,
       with_session w
         (set_last_question JNull
            (set_results (Some found)
               (set_filters f
                  (append_history (Msg "user" (JStr (ui_clarify ui))) (w_session w))))),
       header_events
         ++ [search_button; EvWidget "info" (last_question (w_session w))]
         ++ clarify_widgets
         ++ [EvCompletion (request_messages (ui_clarify ui)
                             (conversation_history (w_session w)));
             EvFind f]
         ++ panel_widgets py_str (Some found)).
Proof.
  intros Hclick Hpending Hclarify Hana Hstatus Hf Hfound. run_script.
  rewrite search_section_idle by congruence.
  cbn [outcome_of world_of events_of fst snd]. rewrite bind_run.
  run_form. rewrite Hpending, (bool_decide_eq_true_2 _ Hclick), Hclarify. cbn [andb].
  rewrite (analyze_query_run _ _ _ _ _ w), Hana.
  cbn. rewrite Hstatus. cbn. rewrite Hf. cbn. rewrite Hfound. cbn.
  rewrite results_panel_run. reflexivity.
Qed.

Lemma length_listing_widgets (listings : list (gmap string value)) :
  length (concat (map (listing_widgets py_str) listings)) = 7 * length listings.
Proof.
  induction listings as [|prop listings IH]; [reflexivity|].
  cbn [map concat]. rewrite length_app, IH. cbn [listing_widgets length]. lia.
Qed.

(** X24: the results panel shows its heading and then, for every held
    listing in the order of the list, seven widgets: the six labelled
    fields, with the placeholder for an absent attribute, and a rule. *)
Theorem results_panel_renders_every_listing (w : W) listings :
  results (w_session w) = Some listings ->
  listings <> [] ->
  results_panel py_str w
    = (Ret tt, w,
       EvWidget "subheader" (JStr "Search Results")
         :: concat (map (listing_widgets py_str) listings))
  /\ length (events_of (results_panel py_str w)) = 1 + 7 * length listings.
Proof.
  intros Hheld Hne. rewrite results_panel_run, Hheld.
  destruct listings as [|prop listings]; [done|].
  split; [reflexivity|].
  unfold events_of. cbn [snd panel_widgets].
  change (length (EvWidget "subheader" (JStr "Search Results")
                    :: concat (map (listing_widgets py_str) (prop :: listings))))
    with (S (length (concat (map (listing_widgets py_str) (prop :: listings))))).
  by rewrite length_listing_widgets.
Qed.

End FormFacts.

(** ** Further properties of the rendering *)

Section RenderingFacts.

Context {value : Type}.
Variable py_str : value -> string.

Lemma string_app_assoc (a b c : string) : (a +:+ b) +:+ c = a +:+ (b +:+ c).
Proof.
  induction a as [|x a IH]; [reflexivity|].
  change (String x ((a +:+ b) +:+ c) = String x (a +:+ (b +:+ c))).
  f_equal. exact IH.
Qed.

Lemma join_app sep (xs ys : list string) :
  xs <> [] -> ys <> [] ->
  join sep (xs ++ ys) = join sep xs +:+ sep +:+ join sep ys.
Proof.
  intros Hxs Hys. induction xs as [|x xs IH]; [done|].
  destruct xs as [|x' xs].
  - destruct ys as [|y ys]; [done|]. reflexivity.
  - change (join sep ((x :: x' :: xs) ++ ys))
      with (x +:+ sep +:+ join sep ((x' :: xs) ++ ys)).
    rewrite IH by done.
    change (join sep (x :: x' :: xs)) with (x +:+ sep +:+ join sep (x' :: xs)).
    by rewrite !string_app_assoc.
Qed.

(** X25: formatting composes: the text of two non-empty lists of
    listings put end to end is the text of the first, a line feed, and
    the text of the second. *)
Theorem format_results_app (xs ys : list (gmap string value)) :
  xs <> [] -> ys <> [] ->
  format_results py_str (xs ++ ys)
    = format_results py_str xs +:+ nl +:+ format_results py_str ys.
Proof.
  intros Hxs Hys.
  assert (Hjoin : forall l : list (gmap string value), l <> [] ->
            format_results py_str l = join nl (map (listing_text py_str) l)).
  { intros [|x l] Hl; [done|].
    unfold format_results. cbn zeta. rewrite format_loop. reflexivity. }
  rewrite !Hjoin by (try done; by destruct xs).
  rewrite map_app. apply join_app; by destruct xs, ys.
Qed.

End RenderingFacts.

(** ** The further properties at explicit inputs *)

Section MoreRuns.

Import Sample.

Local Abbreviation listing := (gmap string Sample.value).
Local Abbreviation at_console model :=
  (flow_body py_str coll_find model json_loads).
Local Abbreviation in_form model := (app py_str coll_find model json_loads).
Local Abbreviation interpret model := (analyze_query model json_loads).

Ltac by_run := first [reflexivity | vm_compute; reflexivity | discriminate].

(** The interpretations of the sample replies. *)
Local Abbreviation failed_chatter :=
  (<["status" := JStr "error"]>
     (<["error" := JStr "Expecting value: line 1 column 1 (char 0)"]>
        (<["raw_response" := JStr chatter]> (∅ : gmap string json)))).
Local Abbreviation filter_3bhk :=
  (JObj (<["flatType" := JStr "3BHK"]>
           (<["price" := JObj (<["$lte" := JInt 20000]> ∅)]> ∅))).
Local Abbreviation complete_3bhk :=
  (<["status" := JStr "complete"]> (<["filters" := filter_3bhk]> (∅ : gmap string json))).
Local Abbreviation incomplete_area :=
  (<["status" := JStr "incomplete"]>
     (<["question" := JStr "Which area?"]> (∅ : gmap string json))).
Local Abbreviation complete_text :=
  (<["status" := JStr "complete"]> (<["filters" := JStr "3BHK"]> (∅ : gmap string json))).
Local Abbreviation not_a_mapping := (Exn "TypeError" "filter must be an instance of dict").
Local Abbreviation search ui_text :=
  {| ui_query := ui_text; ui_clarify := EmptyString; ui_clicked := Some SearchButton |}.
Local Abbreviation clarify ui_text :=
  {| ui_query := EmptyString; ui_clarify := ui_text; ui_clicked := Some ClarifyButton |}.
Local Abbreviation pending := (set_last_question (JStr "Which area?") new_session).

Lemma console_failed_turn_witness :
  printed (events_of (at_console (always chatter) [] (JObj ∅) (console ["hello"])))
    = [JStr chatter].
Proof.
  rewrite (console_failed_turn py_str coll_find (always chatter) json_loads
             [] (JObj ∅) (console ["hello"]) "hello" [] failed_chatter);
    by_run.
Defined.

Lemma console_prints_unparseable_reply_witness :
  json_loads chatter
    = Raise (Exn "JSONDecodeError" "Expecting value: line 1 column 1 (char 0)")
  /\ printed (events_of (at_console (always chatter) [] (JObj ∅) (console ["hello"])))
     = [JStr chatter]
  /\ outcome_of (at_console (always chatter) [] (JObj ∅) (console ["hello"]))
     = Ret (Continue, [Msg "user" (JStr "hello")], JObj ∅).
Proof.
  split; [reflexivity|].
  apply (console_prints_unparseable_reply py_str coll_find (always chatter) json_loads
           [] (JObj ∅) (console ["hello"]) "hello" [] chatter
           (Exn "JSONDecodeError" "Expecting value: line 1 column 1 (char 0)"));
    first [apply always_says | by_run].
Defined.

Lemma console_unrecognised_shape_witness :
  recognised (JObj (<["status" := JStr "maybe"]> ∅)) = false
  /\ printed (events_of (at_console (always odd_status) [] (JObj ∅) (console ["hello"])))
     = [JStr (nl +:+ "Sorry, I could not process your request. Please try again.")].
Proof.
  split; [reflexivity|].
  rewrite (console_unrecognised_shape py_str coll_find (always odd_status) json_loads
             [] (JObj ∅) (console ["hello"]) "hello" []
             (<["status" := JStr "maybe"]> ∅));
    by_run.
Defined.

Lemma console_non_object_reply_raises_witness :
  outcome_of (at_console (always a_list) [] (JObj ∅) (console ["any flats?"]))
    = Raise (Exn "AttributeError" "'list' object has no attribute 'get'").
Proof.
  rewrite (console_non_object_reply_raises py_str coll_find (always a_list) json_loads
             [] (JObj ∅) (console ["any flats?"]) "any flats?" []
             (JArr [JInt 1; JInt 2]));
    first [by_run | intros m; discriminate].
Defined.

Lemma console_incomplete_needs_text_question_witness :
  outcome_of (at_console (always no_question) [] (JObj ∅) (console ["a flat"]))
    = Raise (Exn "KeyError" "'question'").
Proof.
  rewrite (console_incomplete_needs_text_question py_str coll_find (always no_question)
             json_loads [] (JObj ∅) (console ["a flat"]) "a flat" []
             (<["status" := JStr "incomplete"]> ∅));
    by_run.
Defined.

Lemma console_history_append_only_witness :
  exists line rest,
    w_stdin (console ["I want a flat"]) = line :: rest
    /\ ((Continue = Break
         /\ [Msg "user" (JStr "I want a flat"); Msg "assistant" (JStr "Which area?")] = []
         /\ JObj ∅ = JObj ∅)
        \/ [Msg "user" (JStr "I want a flat"); Msg "assistant" (JStr "Which area?")]
           = [] ++ [Msg "user" (JStr (strip line))]
        \/ exists question,
             Continue = Continue /\ JObj ∅ = JObj ∅
             /\ [Msg "user" (JStr "I want a flat"); Msg "assistant" (JStr "Which area?")]
                = ([] ++ [Msg "user" (JStr (strip line))])
                    ++ [Msg "assistant" question]).
Proof.
  apply (console_history_append_only py_str coll_find (always asks_area) json_loads
           [] (JObj ∅) (console ["I want a flat"])).
  by_run.
Defined.

Lemma console_refine_answer_witness :
  str_in (lower " yes") ["y"; "yes"] = false
  /\ outcome_of (at_console (always cheap_3bhk) [] (JObj ∅)
                   (console ["3BHK under 20k"; " yes"]))
     = Ret (Break, [Msg "user" (JStr "3BHK under 20k")], filter_3bhk).
Proof.
  split; [reflexivity|].
  rewrite (console_refine_answer py_str coll_find (always cheap_3bhk) json_loads
             [] (JObj ∅) (console ["3BHK under 20k"; " yes"]) "3BHK under 20k" " yes" []
             complete_3bhk filter_3bhk [flat_a]);
    by_run.
Defined.

Lemma console_end_of_input_witness :
  outcome_of (at_console (always cheap_3bhk) [] (JObj ∅) (console []))
    = Raise (Exn "EOFError" "EOF when reading a line")
  /\ outcome_of (at_console (always cheap_3bhk) [] (JObj ∅) (console ["3BHK under 20k"]))
     = Raise (Exn "EOFError" "EOF when reading a line").
Proof.
  split.
  - rewrite (proj1 (console_end_of_input py_str coll_find (always cheap_3bhk) json_loads
                      [] (JObj ∅) (console [])));
      by_run.
  - rewrite (proj2 (console_end_of_input py_str coll_find (always cheap_3bhk) json_loads
                      [] (JObj ∅) (console ["3BHK under 20k"]))
               "3BHK under 20k" complete_3bhk filter_3bhk [flat_a]);
      by_run.
Defined.

Lemma console_store_failure_propagates_witness :
  coll_find [flat_a; flat_b] (JStr "3BHK") = Raise not_a_mapping
  /\ outcome_of (at_console (always text_filter) [] (JObj ∅) (console ["3BHK"; "no"]))
     = Raise not_a_mapping.
Proof.
  split; [reflexivity|].
  rewrite (console_store_failure_propagates py_str coll_find (always text_filter)
             json_loads [] (JObj ∅) (console ["3BHK"; "no"]) "3BHK" ["no"]
             complete_text (JStr "3BHK") not_a_mapping);
    by_run.
Defined.

Lemma console_blank_line_calls_model_witness :
  strip "   " = EmptyString
  /\ exists tail,
       events_of (at_console (always asks_area) [] (JObj ∅) (console ["   "]))
         = EvInput (nl +:+ "Your search query: ")
             :: EvCompletion (request_messages EmptyString []) :: tail.
Proof.
  split; [reflexivity|].
  apply (console_blank_line_calls_model py_str coll_find (always asks_area) json_loads
           [] (JObj ∅) (console ["   "]) "   " []);
    by_run.
Defined.

Lemma console_question_becomes_context_witness :
  exists tail,
    events_of (flow_loop py_str coll_find (always asks_area) json_loads 2 [] (JObj ∅)
                 (console ["I want a flat"; "in Gachibowli"]))
      = [EvInput (nl +:+ "Your search query: ");
         EvCompletion (request_messages "I want a flat" []);
         EvPrint (JStr (nl +:+ "Which area?"));
         EvInput (nl +:+ "Your search query: ");
         EvCompletion
           (request_messages "in Gachibowli"
              ([] ++ [Msg "user" (JStr "I want a flat");
                      Msg "assistant" (JStr "Which area?")]))] ++ tail.
Proof.
  apply (console_question_becomes_context py_str coll_find (always asks_area) json_loads
           [] (JObj ∅) (console ["I want a flat"; "in Gachibowli"])
           "I want a flat" "in Gachibowli" [] incomplete_area "Which area?" 0);
    by_run.
Defined.

Lemma console_session_ends_witness :
  length (w_stdin (console ["a flat"; "a house"])) < 3
  /\ outcome_of (flow_loop py_str coll_find (always chatter) reject_all 3 [] (JObj ∅)
                   (console ["a flat"; "a house"]))
     <> OutOfFuel.
Proof.
  split; [cbn; lia|].
  apply (console_session_ends py_str coll_find (always chatter) reject_all 3
           [] (JObj ∅) (console ["a flat"; "a house"])).
  - intros messages. discriminate.
  - intros text. discriminate.
  - intros db f. destruct f; discriminate.
  - cbn. lia.
Defined.

Lemma console_empty_response_raises_witness :
  outcome_of (at_console no_choices [] (JObj ∅) (console ["hello"]))
    = Raise (Exn "IndexError" "list index out of range").
Proof.
  rewrite (console_empty_response_raises py_str coll_find no_choices json_loads
             [] (JObj ∅) (console ["hello"]) "hello" [] {| choices := [] |});
    by_run.
Defined.

Lemma console_prints_none_content_witness :
  printed (events_of (at_console no_content [] (JObj ∅) (console ["hello"]))) = [JNull].
Proof.
  rewrite (console_prints_none_content py_str coll_find no_content json_loads
             [] (JObj ∅) (console ["hello"]) "hello" []
             {| choices := [ {| choice_message := {| msg_content := None |} |} ] |}
             {| choice_message := {| msg_content := None |} |} []);
    by_run.
Defined.

Lemma console_model_failure_propagates_witness :
  outcome_of (at_console unreachable [] (JObj ∅) (console ["hello"]))
    = Raise (Exn "APIConnectionError" "Connection error.").
Proof.
  rewrite (console_model_failure_propagates py_str coll_find unreachable json_loads
             [] (JObj ∅) (console ["hello"]) "hello" []
             (Exn "APIConnectionError" "Connection error."));
    by_run.
Defined.

Lemma form_rerun_changes_nothing_witness :
  let ui := {| ui_query := "3BHK"; ui_clarify := EmptyString; ui_clicked := None |} in
  outcome_of (in_form unreachable ui (browser pending)) = Ret tt
  /\ world_of (in_form unreachable ui (browser pending)) = browser pending
  /\ service_calls (events_of (in_form unreachable ui (browser pending))) = [].
Proof.
  cbn zeta.
  destruct (form_rerun_changes_nothing py_str coll_find unreachable json_loads
              {| ui_query := "3BHK"; ui_clarify := EmptyString; ui_clicked := None |}
              (browser pending))
    as (Hout & Hworld & Hcalls & _); [discriminate | discriminate |].
  auto.
Defined.

Lemma form_failed_stops_run_witness :
  widgets (events_of (in_form (always chatter) (search "hello") (browser new_session)))
    = [("set_page_config", JStr "Real Estate Property Search");
       ("title", JStr "🏠 Real Estate Property Search AI Agent");
       ("write", JStr "Enter your property search query below:");
       ("text_input", JStr "Your search query");
       ("button", JStr "Search");
       ("error", JStr "Sorry, there was an error understanding your request.");
       ("write", JStr chatter)].
Proof.
  rewrite (form_failed_stops_run py_str coll_find (always chatter) json_loads
             (search "hello") (browser new_session) failed_chatter);
    by_run.
Defined.

Lemma form_clarification_failed_is_generic_witness :
  w_session (world_of (in_form (always chatter) (clarify "Gachibowli") (browser pending)))
    = {| conversation_history := [Msg "user" (JStr "Gachibowli")];
         filters := JObj ∅; results := None; last_question := JNull |}.
Proof.
  rewrite (form_clarification_failed_is_generic py_str coll_find (always chatter)
             json_loads (clarify "Gachibowli") (browser pending) failed_chatter);
    by_run.
Defined.

Lemma form_complete_shows_results_witness :
  w_session (world_of (in_form (always cheap_3bhk) (search "3BHK under 20k")
                         (browser pending)))
    = {| conversation_history := [Msg "user" (JStr "3BHK under 20k")];
         filters := filter_3bhk; results := Some [flat_a]; last_question := JNull |}.
Proof.
  rewrite (form_complete_shows_results py_str coll_find (always cheap_3bhk) json_loads
             (search "3BHK under 20k") (browser pending)
             complete_3bhk filter_3bhk [flat_a]);
    by_run.
Defined.

Lemma form_store_failure_propagates_witness :
  outcome_of (in_form (always text_filter) (search "3BHK") (browser new_session))
    = Raise not_a_mapping
  /\ w_session (world_of (in_form (always text_filter) (search "3BHK")
                            (browser new_session)))
     = {| conversation_history := [Msg "user" (JStr "3BHK")];
          filters := JStr "3BHK"; results := None; last_question := JNull |}.
Proof.
  rewrite (form_store_failure_propagates py_str coll_find (always text_filter) json_loads
             (search "3BHK") (browser new_session)
             complete_text (JStr "3BHK") not_a_mapping);
    first [by_run | split; reflexivity].
Defined.

Lemma form_incomplete_stores_question_witness :
  w_session (world_of (in_form (always asks_area) (search " I want a flat ")
                         (browser (set_results (Some [flat_a]) new_session))))
    = {| conversation_history := [Msg "user" (JStr " I want a flat ")];
         filters := JObj ∅; results := None; last_question := JStr "Which area?" |}.
Proof.
  rewrite (form_incomplete_stores_question py_str coll_find (always asks_area) json_loads
             (search " I want a flat ")
             (browser (set_results (Some [flat_a]) new_session))
             incomplete_area (JStr "Which area?"));
    by_run.
Defined.

Lemma form_non_object_reply_raises_witness :
  outcome_of (in_form (always a_list) (search "any flats?") (browser new_session))
    = Raise (Exn "AttributeError" "'list' object has no attribute 'get'").
Proof.
  rewrite (form_non_object_reply_raises py_str coll_find (always a_list) json_loads
             (search "any flats?") (browser new_session) (JArr [JInt 1; JInt 2]));
    first [by_run | intros m; discriminate].
Defined.

Lemma form_model_failure_leaves_session_witness :
  world_of (in_form unreachable (search "hello") (browser pending)) = browser pending
  /\ outcome_of (in_form unreachable (search "hello") (browser pending))
     = Raise (Exn "APIConnectionError" "Connection error.").
Proof.
  rewrite (form_model_failure_leaves_session py_str coll_find unreachable json_loads
             (search "hello") (browser pending)
             (Exn "APIConnectionError" "Connection error."));
    first [by_run | split; reflexivity].
Defined.

Lemma form_clarification_complete_shows_results_witness :
  w_session (world_of (in_form (always cheap_3bhk) (clarify "3BHK under 20k")
                         (browser pending)))
    = {| conversation_history := [Msg "user" (JStr "3BHK under 20k")];
         filters := filter_3bhk; results := Some [flat_a]; last_question := JNull |}.
Proof.
  rewrite (form_clarification_complete_shows_results py_str coll_find (always cheap_3bhk)
             json_loads (clarify "3BHK under 20k") (browser pending)
             complete_3bhk filter_3bhk [flat_a]);
    by_run.
Defined.

Lemma results_panel_renders_every_listing_witness :
  length (events_of (results_panel py_str
                       (browser (set_results (Some [flat_a; flat_b]) new_session))))
    = 15.
Proof.
  rewrite (proj2 (results_panel_renders_every_listing py_str
                    (browser (set_results (Some [flat_a; flat_b]) new_session))
                    [flat_a; flat_b] eq_refl ltac:(discriminate))).
  reflexivity.
Defined.

Lemma format_results_app_witness :
  format_results py_str ([flat_a] ++ [flat_b])
    = format_results py_str [flat_a] +:+ nl +:+ format_results py_str [flat_b].
Proof.
  apply (format_results_app py_str [flat_a] [flat_b]); discriminate.
Defined.

End MoreRuns.
